(** * Kisaan-Mitra: the advisory pipeline of [Kisaan-Mitra.py]

    A shallow embedding of the Python module: the weather-code table, the
    climate classifier, the soil table, the two HTTP clients, the advisory
    composer and the recommendation pipeline, followed by the properties
    the specification states about them.

    Python is dynamically typed, and the values the pipeline works on come
    out of [response.json()], so the embedding works on a type [value] of
    parsed JSON and gives every primitive the code uses ([dict.get],
    subscripting, [abs], [>], [in], truthiness) its Python behaviour,
    including the exception it raises on a value of the wrong type.

    Numbers are rationals: every finite Python int or float is one, and the
    code only compares numbers (comparison of an int or a float with a
    constant is exact in Python) and takes absolute values.  NaN and the
    infinities, which are not JSON, are outside the model. *)

From Stdlib Require Import ZArith QArith Qabs Lqa Lia List String Ascii Bool.
Import ListNotations.

Local Open Scope string_scope.

(** ** Python values, exceptions and primitives *)

Module Py.

#[warnings="-register-all"]
Inductive value : Type :=
| VNone
| VBool (b : bool)
| VNum (q : Q)
| VStr (s : string)
| VList (l : list value)
| VDict (d : list (string * value)).

(** An integer literal. *)
Definition VInt (n : Z) : value := VNum (inject_Z n).

(** The exceptions that the modelled code can meet.  [RequestException]
    stands for whatever [requests.get], [raise_for_status] or
    [response.json] raise (connection failure, timeout, non-2xx status,
    undecodable body); it carries the cause. *)
Inductive exn : Type :=
| TypeError
| KeyError
| IndexError
| AttributeError
| RequestException (cause : string).

Inductive result (A : Type) : Type :=
| Ok (a : A)
| Raise (e : exn).
Arguments Ok {A} a.
Arguments Raise {A} e.

Definition bind {A B : Type} (c : result A) (k : A -> result B) : result B :=
  match c with
  | Ok a => k a
  | Raise e => Raise e
  end.

Definition is_ok {A : Type} (c : result A) : bool :=
  match c with Ok _ => true | Raise _ => false end.

Fixpoint lookup (k : string) (d : list (string * value)) : option value :=
  match d with
  | [] => None
  | (k', v) :: d' => if String.eqb k k' then Some v else lookup k d'
  end.

(** [bool] is a subclass of [int]: [True] counts as 1 and [False] as 0 in
    arithmetic, comparisons and as a dict key. *)
Definition as_number (v : value) : option Q :=
  match v with
  | VNum q => Some q
  | VBool true => Some 1%Q
  | VBool false => Some 0%Q
  | _ => None
  end.

(** Truth value testing: [if v], [not v]. *)
Definition truthy (v : value) : bool :=
  match v with
  | VNone => false
  | VBool b => b
  | VNum q => negb (Qeq_bool q 0)
  | VStr s => negb (String.eqb s EmptyString)
  | VList l => match l with [] => false | _ :: _ => true end
  | VDict d => match d with [] => false | _ :: _ => true end
  end.

(** [obj.get(k, default)]: only a dict has the method. *)
Definition get (obj : value) (k : string) (default : value) : result value :=
  match obj with
  | VDict d => Ok (match lookup k d with Some v => v | None => default end)
  | _ => Raise AttributeError
  end.

(** [obj[k]] for a string key [k]. *)
Definition getitem (obj : value) (k : string) : result value :=
  match obj with
  | VDict d => match lookup k d with Some v => Ok v | None => Raise KeyError end
  | _ => Raise TypeError
  end.

(** Strings are UTF-8 byte sequences here, Python's are sequences of code
    points: a code point is a lead byte and the continuation bytes
    (10xxxxxx) after it. *)
Definition is_continuation (c : ascii) : bool :=
  let n := nat_of_ascii c in (128 <=? n)%nat && (n <? 192)%nat.

Fixpoint continuation_bytes (s : string) : string :=
  match s with
  | String c t => if is_continuation c then String c (continuation_bytes t) else EmptyString
  | EmptyString => EmptyString
  end.

Fixpoint code_points (s : string) : nat :=
  match s with
  | String c t => (if is_continuation c then 0 else 1) + code_points t
  | EmptyString => 0
  end.

(** [obj[0]].  A dict decoded from JSON has only string keys, so the key
    [0] is always missing. *)
Definition index0 (obj : value) : result value :=
  match obj with
  | VList (x :: _) => Ok x
  | VList [] => Raise IndexError
  | VStr (String c t) => Ok (VStr (String c (continuation_bytes t)))
  | VStr EmptyString => Raise IndexError
  | VDict _ => Raise KeyError
  | _ => Raise TypeError
  end.

(** [len(obj)]. *)
Definition len (obj : value) : result nat :=
  match obj with
  | VList l => Ok (List.length l)
  | VStr s => Ok (code_points s)
  | VDict d => Ok (List.length d)
  | _ => Raise TypeError
  end.

(** [abs(v)]. *)
Definition abs (v : value) : result Q :=
  match as_number v with
  | Some q => Ok (Qabs q)
  | None => Raise TypeError
  end.

Definition Qgt_bool (x y : Q) : bool := negb (Qle_bool x y).
Definition Qlt_bool (x y : Q) : bool := negb (Qle_bool y x).

(** [v > c] and [v < c] against a numeric constant. *)
Definition num_gt (v : value) (c : Q) : result bool :=
  match as_number v with
  | Some q => Ok (Qgt_bool q c)
  | None => Raise TypeError
  end.

Definition num_lt (v : value) (c : Q) : result bool :=
  match as_number v with
  | Some q => Ok (Qlt_bool q c)
  | None => Raise TypeError
  end.

(** [needle in hay] on strings: [needle] occurs in [hay]. *)
Fixpoint str_contains (needle hay : string) : bool :=
  String.prefix needle hay ||
  match hay with
  | String _ t => str_contains needle t
  | EmptyString => false
  end.

(** [k in obj] for a string [k]: key of a dict, element of a list,
    substring of a string; anything else is not iterable. *)
Definition contains (k : string) (obj : value) : result bool :=
  match obj with
  | VDict d => Ok (match lookup k d with Some _ => true | None => false end)
  | VList l =>
      Ok (existsb (fun x => match x with VStr s => String.eqb s k | _ => false end) l)
  | VStr s => Ok (str_contains k s)
  | _ => Raise TypeError
  end.

(** [str.lower()], on the ASCII letters.  The zone labels the pipeline
    produces are ASCII. *)
Definition lower_ascii (c : ascii) : ascii :=
  let n := nat_of_ascii c in
  if (65 <=? n)%nat && (n <=? 90)%nat then ascii_of_nat (n + 32) else c.

Fixpoint lower (s : string) : string :=
  match s with
  | String c t => String (lower_ascii c) (lower t)
  | EmptyString => EmptyString
  end.

(** [sep.join(l)]. *)
Definition join (sep : string) (l : list string) : string := String.concat sep l.

End Py.

Import Py.

Declare Scope py_scope.
Notation "x <- c ;; k" := (bind c (fun x => k))
  (at level 61, c at next level, right associativity) : py_scope.
Local Open Scope py_scope.

(** The newline character of ["\n".join(advice)]. *)
Definition nl : string := String (ascii_of_nat 10) EmptyString.

(** ** Utility functions *)

(** The dict literal of [interpret_weather_code]. *)
Definition weather_codes : list (Z * string) :=
  [ (0, "Clear sky"); (1, "Mainly clear"); (2, "Partly cloudy"); (3, "Overcast");
    (45, "Foggy"); (48, "Depositing rime fog"); (51, "Light drizzle");
    (53, "Moderate drizzle"); (55, "Dense drizzle"); (61, "Slight rain");
    (63, "Moderate rain"); (65, "Heavy rain"); (71, "Slight snow");
    (73, "Moderate snow"); (75, "Heavy snow"); (77, "Snow grains");
    (80, "Slight rain showers"); (81, "Moderate rain showers");
    (82, "Violent rain showers"); (85, "Slight snow showers");
    (86, "Heavy snow showers"); (95, "Thunderstorm");
    (96, "Thunderstorm with slight hail"); (99, "Thunderstorm with heavy hail") ]%Z.

(** Lookup of a number among integer keys: Python compares and hashes
    [61] and [61.0] alike. *)
Fixpoint find_code (q : Q) (table : list (Z * string)) : option string :=
  match table with
  | [] => None
  | (k, label) :: rest =>
      if Qeq_bool (inject_Z k) q then Some label else find_code q rest
  end.

(** [weather_codes.get(code, "Unknown")]: a list or a dict is unhashable
    and cannot be looked up; [None] and strings are hashable and absent. *)
Definition interpret_weather_code (code : value) : result string :=
  match code with
  | VList _ | VDict _ => Raise TypeError
  | _ =>
      match as_number code with
      | Some q =>
          Ok (match find_code q weather_codes with
              | Some label => label
              | None => "Unknown"
              end)
      | None => Ok "Unknown"
      end
  end.

(** Step 1 of [get_climate_zone]: the latitude band; [None] is the early
    [return 'polar']. *)
Definition zone_prefix (lat : value) : result (option string) :=
  a <- abs lat ;;
  if Qle_bool a 23.5 then Ok (Some "tropical")
  else if Qle_bool a 35 then Ok (Some "subtropical")
  else if Qle_bool a 66 then Ok (Some "temperate")
  else Ok None.

Definition get_climate_zone (lat temp precip : value) : result string :=
  band <- zone_prefix lat ;;
  match band with
  | None => Ok "polar"
  | Some zone_prefix =>
      if String.eqb zone_prefix "tropical" then
        hot <- num_gt temp 25 ;;
        wet <- (if hot then num_gt precip 60 else Ok false) ;;
        if wet then Ok "tropical rainforest"
        else
          hot' <- num_gt temp 25 ;;
          if hot' then Ok "tropical savanna" else Ok zone_prefix
      else if String.eqb zone_prefix "subtropical" then
        wet <- num_gt precip 20 ;;
        if wet then Ok "subtropical monsoon" else Ok zone_prefix
      else Ok zone_prefix
  end.


Record SoilProfile : Type := {
  type : string;
  fertility : string;
  erosion : string;
  crops : list string;
  notes : string
}.

Definition lateritic_soil : SoilProfile := {|
  type := "Lateritic Soil";
  fertility := "Medium (prone to leaching)";
  erosion := "High";
  crops := ["Rice"; "Tropical Fruits"; "Coffee"; "Rubber"];
  notes := "Rich in iron oxides; needs careful erosion control and organic matter."
|}.

Definition red_yellow_soil : SoilProfile := {|
  type := "Red and Yellow Soil";
  fertility := "Medium";
  erosion := "Medium to High";
  crops := ["Maize"; "Millet"; "Cotton"; "Pulses"];
  notes := "Seasonal rainfall dependent; deep ploughing helps water retention."
|}.

Definition subtropical_soil : SoilProfile := {|
  type := "Subtropical Loam/Alluvial Soil";
  fertility := "High";
  erosion := "Low to Medium";
  crops := ["Citrus fruits"; "Wheat"; "Vegetables"; "Olives"; "Grapes"];
  notes := "Very versatile soil; careful water management is key, especially during dry spells."
|}.

Definition brown_earth_soil : SoilProfile := {|
  type := "Brown Earth/Forest Soil";
  fertility := "High";
  erosion := "Low";
  crops := ["Wheat"; "Corn"; "Soybeans"; "Root crops"; "Barley"];
  notes := "Well-suited for extensive farming; lime may be needed to adjust pH."
|}.

Definition tundra_soil : SoilProfile := {|
  type := "Tundra Soil";
  fertility := "Low";
  erosion := "Medium";
  crops := ["Hardy vegetables (e.g., kale)"; "Short-season berries"];
  notes := "Limited growing season; focus on raised beds and protecting from permafrost."
|}.

(** The zone label is a [str] at the only call site (it is the result of
    [get_climate_zone]); the latitude is whatever the geocoder sent. *)
Definition predict_soil_characteristics (lat : value) (climate_zone : string)
  : result SoilProfile :=
  let climate_zone_lower := lower climate_zone in
  a <- abs lat ;;
  if Qle_bool a 23.5 then
    if str_contains "rainforest" climate_zone_lower
       || str_contains "monsoon" climate_zone_lower
    then Ok lateritic_soil
    else Ok red_yellow_soil
  else if Qle_bool a 35 then Ok subtropical_soil
  else if Qle_bool a 66 then Ok brown_earth_soil
  else Ok tundra_soil.

(** ** The agent *)

(** The sentences of [generate_advice]. *)
Definition soil_type_sentence (soil : SoilProfile) : string :=
  "Soil Type: This location features **" ++ type soil ++ "**.".

Definition erosion_sentence : string :=
  "⚠️ **Erosion Risk:** The high erosion risk means you should implement terrace farming or heavy mulching immediately.".

Definition heat_sentence : string :=
  "🌡️ **Heat Alert:** Current high temperatures require increased **irrigation frequency** to prevent crop dehydration.".

Definition cool_sentence : string :=
  "🥶 **Cool Weather:** Consider protecting vulnerable crops from cold shock, possibly using temporary covers.".

Definition rainfall_sentence : string :=
  "☔ **Rainfall:** Due to current rain, postpone any major field work (ploughing, spraying) for at least 24 hours to prevent soil compaction.".

Definition wind_sentence : string :=
  "🌬️ **Wind Warning:** Strong winds could cause lodging. Ensure taller crops are adequately staked or sheltered.".

Definition best_crop_sentence (soil : SoilProfile) : string :=
  let best_crops := join ", " (crops soil) in
  nl ++ "🌱 **Best Crop Strategy:** The most suitable crops are: **" ++ best_crops ++ "**.".

Definition fertility_sentence (soil : SoilProfile) : string :=
  "Fertility: The soil has **" ++ fertility soil ++ "** fertility. Supplement with organic compost before planting the next cycle.".

Definition stable_sentence : string :=
  "Conditions are stable. Proceed with routine maintenance and monitoring.".

(** ['Lateritic Soil' in soil_type or erosion == 'High'] *)
Definition erosion_risk (soil : SoilProfile) : bool :=
  str_contains "Lateritic Soil" (type soil) || String.eqb (erosion soil) "High".

Definition rain_codes : list Z := [61; 63; 65; 80; 81; 82]%Z.

(** [code in [61, 63, ...]]: membership by [==], which compares numbers
    by value and is [False], never an error, between a number and
    anything else. *)
Definition code_in (code : value) (codes : list Z) : bool :=
  match as_number code with
  | Some q => existsb (fun k => Qeq_bool (inject_Z k) q) codes
  | None => false
  end.

(** [advice.append(x)] *)
Definition append (advice : list string) (x : string) : list string :=
  (advice ++ [x])%list.

(** The list [advice] of [generate_advice] as it stands before the join. *)
Definition advice_sentences (weather : value) (soil : SoilProfile)
  : result (list string) :=
  let advice : list string := [] in
  let advice := append advice (soil_type_sentence soil) in
  let advice :=
    if erosion_risk soil then append advice erosion_sentence else advice in
  current <- get weather "current" (VDict []) ;;
  temp <- get current "temperature_2m" (VInt 0) ;;
  precip <- get current "precipitation" (VInt 0) ;;
  wind <- get current "wind_speed_10m" (VInt 0) ;;
  code <- get current "weather_code" (VInt 0) ;;
  condition <- interpret_weather_code code ;;
  hot <- num_gt temp 30 ;;
  advice <-
    (if hot then Ok (append advice heat_sentence)
     else
       cold <- num_lt temp 10 ;;
       Ok (if cold then append advice cool_sentence else advice)) ;;
  raining <- num_gt precip 0 ;;
  let advice :=
    if raining || code_in code rain_codes
    then append advice rainfall_sentence else advice in
  windy <- num_gt wind 30 ;;
  let advice := if windy then append advice wind_sentence else advice in
  let advice := append advice (best_crop_sentence soil) in
  let advice := append advice (fertility_sentence soil) in
  let advice :=
    match advice with
    | [] => append advice stable_sentence
    | _ :: _ => advice
    end in
  Ok advice.

Definition generate_advice (weather : value) (soil : SoilProfile) : result string :=
  advice <- advice_sentences weather soil ;;
  Ok (join nl advice).

(** What an HTTP exchange ([requests.get], [raise_for_status],
    [response.json]) comes to: an exception, or the decoded body. *)
Inductive http_outcome : Type :=
| HttpFailure (cause : string)
| HttpJson (body : value).

(** The lines the two clients print when they catch an exception. *)
Inductive event : Type :=
| GeocodingError (e : exn)
| WeatherAPIError (e : exn).

(** The dict [get_agricultural_recommendation] returns: an error result
    with the one key ["error"], or the full report. *)
Record report : Type := {
  location_name : string;
  latitude : value;
  longitude : value;
  temperature : value;
  humidity : value;
  precipitation : value;
  wind_speed : value;
  condition : string;
  climate_zone : string;
  soil : SoilProfile;
  advice : string
}.

Inductive recommendation : Type :=
| ErrorResult (error : string)
| Report (r : report).

Section AgriAgent.

(** The two services, as the answers they give to a request. *)
Variable geocoding_api : string -> http_outcome.
Variable weather_api : value -> value -> http_outcome.

(** [str()] of a value that is not a string, as an f-string
    interpolates it (the repr of numbers and containers is not
    modelled). *)
Variable str_of : value -> string.

Definition format (v : value) : string :=
  match v with
  | VStr s => s
  | _ => str_of v
  end.

(** The body of the [try] block of [get_coordinates]. *)
Definition parse_coordinates (data : value)
  : result (option (value * value * string)) :=
  has_results <- contains "results" data ;;
  nonempty <-
    (if has_results then
       results <- getitem data "results" ;;
       n <- len results ;;
       Ok (0 <? n)%nat
     else Ok false) ;;
  if nonempty then
    results <- getitem data "results" ;;
    result <- index0 results ;;
    lat <- getitem result "latitude" ;;
    lon <- getitem result "longitude" ;;
    name <- getitem result "name" ;;
    country <- get result "country" (VStr EmptyString) ;;
    admin1 <- get result "admin1" (VStr EmptyString) ;;
    let full_name := format name in
    let full_name :=
      if truthy admin1 then full_name ++ ", " ++ format admin1 else full_name in
    let full_name :=
      if truthy country then full_name ++ ", " ++ format country else full_name in
    Ok (Some (lat, lon, full_name))
  else Ok None.

(** [except Exception as e: print(...); return None] *)
Definition get_coordinates (location : string)
  : list event * option (value * value * string) :=
  match geocoding_api location with
  | HttpFailure cause => ([GeocodingError (RequestException cause)], None)
  | HttpJson data =>
      match parse_coordinates data with
      | Ok coords => ([], coords)
      | Raise e => ([GeocodingError e], None)
      end
  end.

(** Returns the decoded body, or [None] after printing the error. *)
Definition fetch_combined_data (latitude longitude : value)
  : list event * value :=
  match weather_api latitude longitude with
  | HttpFailure cause => ([WeatherAPIError (RequestException cause)], VNone)
  | HttpJson body => ([], body)
  end.

(** [daily.get(key, [0])[0] if daily else 0] *)
Definition daily_first (daily : value) (key : string) : result value :=
  if truthy daily then
    series <- get daily key (VList [VInt 0]) ;;
    index0 series
  else Ok (VInt 0).

(** Steps 3 to 7 of [get_agricultural_recommendation]. *)
Definition build_report (lat lon : value) (location_name : string)
    (raw_weather_data : value) : result recommendation :=
  current <- get raw_weather_data "current" (VDict []) ;;
  daily <- get raw_weather_data "daily" (VDict []) ;;
  temp_max_daily <- daily_first daily "temperature_2m_max" ;;
  precip_sum_daily <- daily_first daily "precipitation_sum" ;;
  climate_zone <- get_climate_zone lat temp_max_daily precip_sum_daily ;;
  soil_info <- predict_soil_characteristics lat climate_zone ;;
  temperature <- get current "temperature_2m" (VStr "N/A") ;;
  humidity <- get current "relative_humidity_2m" (VStr "N/A") ;;
  precipitation <- get current "precipitation" (VInt 0) ;;
  wind_speed <- get current "wind_speed_10m" (VStr "N/A") ;;
  weather_code <- get current "weather_code" (VInt 0) ;;
  condition <- interpret_weather_code weather_code ;;
  final_advice <- generate_advice raw_weather_data soil_info ;;
  Ok (Report {|
    location_name := location_name;
    latitude := lat;
    longitude := lon;
    temperature := temperature;
    humidity := humidity;
    precipitation := precipitation;
    wind_speed := wind_speed;
    condition := condition;
    climate_zone := climate_zone;
    soil := soil_info;
    advice := final_advice
  |}).

(** The printed lines, and the returned dict or the exception that
    escapes the method. *)
Definition get_agricultural_recommendation (location : string)
  : list event * result recommendation :=
  let (log1, coords) := get_coordinates location in
  match coords with
  | None => (log1, Ok (ErrorResult ("Could not find location: " ++ location)))
  | Some (lat, lon, location_name) =>
      let (log2, raw_weather_data) := fetch_combined_data lat lon in
      if negb (truthy raw_weather_data)
      then ((log1 ++ log2)%list, Ok (ErrorResult "Could not fetch weather data"))
      else ((log1 ++ log2)%list, build_report lat lon location_name raw_weather_data)
  end.

End AgriAgent.

(** ** Vocabulary of the statements *)

Local Open Scope Q_scope.

(** The lowercased label mentions a rainforest or a monsoon. *)
Definition wet_label (zone : string) : Prop :=
  str_contains "rainforest" (lower zone) = true \/
  str_contains "monsoon" (lower zone) = true.

(** Zero or one sentence, as each rule of the composer appends. *)
Definition when (b : bool) (sentence : string) : list string :=
  if b then [sentence] else [].

(** Rules 1 to 7 of the specification's composer, in its words and order,
    for a temperature, a precipitation, a wind speed and the fact that the
    weather code is one of the rain codes. *)
Definition rules_1_to_7 (soil : SoilProfile) (t p w : Q) (rain_code : bool)
  : list string :=
  ([soil_type_sentence soil]
   ++ when (erosion_risk soil) erosion_sentence
   ++ when (Qgt_bool t 30) heat_sentence
   ++ when (negb (Qgt_bool t 30) && Qlt_bool t 10) cool_sentence
   ++ when (Qgt_bool p 0 || rain_code) rainfall_sentence
   ++ when (Qgt_bool w 30) wind_sentence
   ++ [best_crop_sentence soil]
   ++ [fertility_sentence soil])%list.

(** The current readings as the specification's data model has them. *)
Record WeatherSnapshot : Type := {
  snap_temperature : Q;
  snap_humidity : Q;
  snap_precipitation : Q;
  snap_wind_speed : Q;
  snap_weather_code : Z
}.

(** The response dict that carries a snapshot. *)
Definition weather_of (s : WeatherSnapshot) : value :=
  VDict [("current"%string,
          VDict [("temperature_2m"%string, VNum (snap_temperature s));
                 ("relative_humidity_2m"%string, VNum (snap_humidity s));
                 ("precipitation"%string, VNum (snap_precipitation s));
                 ("weather_code"%string, VInt (snap_weather_code s));
                 ("wind_speed_10m"%string, VNum (snap_wind_speed s))])].

(** [c.get(k, default)] on a dict, which cannot fail. *)
Definition field_or (c : list (string * value)) (k : string) (default : value) : value :=
  match lookup k c with
  | Some v => v
  | None => default
  end.

(** A reading of the current block as [generate_advice] takes it:
    [current.get(k, 0)]. *)
Definition reading (c : list (string * value)) (k : string) : value :=
  field_or c k (VInt 0).



(** ** Sample inputs *)

(** The first example of the specification: 35 degrees, no rain, wind
    10, clear sky. *)
Definition hot_dry_snapshot : WeatherSnapshot := {|
  snap_temperature := 35;
  snap_humidity := 40;
  snap_precipitation := 0;
  snap_wind_speed := 10;
  snap_weather_code := 0
|}.

(** The second: 5 degrees under heavy rain (code 65), nothing measured
    yet. *)
Definition cold_rain_snapshot : WeatherSnapshot := {|
  snap_temperature := 5;
  snap_humidity := 90;
  snap_precipitation := 0;
  snap_wind_speed := 0;
  snap_weather_code := 65
|}.


(** A stand-in for [str()] on values that are not strings; the sample
    geocoders only send strings. *)
Definition no_str (v : value) : string := EmptyString.

(** A geocoder that knows one place. *)
Definition pune_geocoding (location : string) : http_outcome :=
  HttpJson (VDict [("results"%string,
    VList [VDict [("name"%string, VStr "Pune");
                  ("latitude"%string, VNum 18.52);
                  ("longitude"%string, VNum 73.86);
                  ("country"%string, VStr "India");
                  ("admin1"%string, VStr "Maharashtra")]])]).

(** A geocoder that finds nothing: the answer has no ["results"]. *)
Definition no_match_geocoding (location : string) : http_outcome :=
  HttpJson (VDict [("generationtime_ms"%string, VNum 0.5)]).

(** A geocoder that cannot be reached. *)
Definition unreachable_geocoding (location : string) : http_outcome :=
  HttpFailure "Connection timed out".

(** A forecast whose daily series are there and empty. *)
Definition empty_daily_forecast (latitude longitude : value) : http_outcome :=
  HttpJson (VDict [
    ("current"%string,
       VDict [("temperature_2m"%string, VInt 28);
              ("relative_humidity_2m"%string, VInt 60);
              ("precipitation"%string, VInt 0);
              ("weather_code"%string, VInt 1);
              ("wind_speed_10m"%string, VInt 12)]);
    ("daily"%string,
       VDict [("temperature_2m_max"%string, VList []);
              ("precipitation_sum"%string, VList [])])]).

(** A forecast whose current block has no weather code and no humidity. *)
Definition no_code_current : list (string * value) :=
  [("temperature_2m"%string, VInt 28);
   ("precipitation"%string, VInt 0);
   ("wind_speed_10m"%string, VInt 12)].

Definition no_code_body : list (string * value) :=
  [("current"%string, VDict no_code_current);
   ("daily"%string,
      VDict [("temperature_2m_max"%string, VList [VInt 31]);
             ("precipitation_sum"%string, VList [VNum 2.5])])].

Definition no_code_forecast (latitude longitude : value) : http_outcome :=
  HttpJson (VDict no_code_body).

(** The advice for Pune under [no_code_forecast]. *)
Definition pune_advice : string :=
  Eval vm_compute in
    match generate_advice (VDict no_code_body) red_yellow_soil with
    | Ok text => text
    | Raise _ => EmptyString
    end.

(** ** Vocabulary of the further properties *)

(** An int, a float or a bool: what [abs] and the comparisons accept. *)
Definition is_number (v : value) : bool :=
  match as_number v with
  | Some _ => true
  | None => false
  end.

(** What can be a dict key: anything but a list or a dict. *)
Definition hashable (v : value) : bool :=
  match v with
  | VList _ | VDict _ => false
  | _ => true
  end.

(** The labels [get_climate_zone] has a [return] for. *)
Definition zone_labels : list string :=
  ["tropical rainforest"; "tropical savanna"; "tropical";
   "subtropical monsoon"; "subtropical"; "temperate"; "polar"]%string.

(** The soil profile that goes with each zone label at the latitude that
    produced the label. *)
Definition zone_soil_table : list (string * SoilProfile) :=
  [("tropical rainforest", lateritic_soil);
   ("tropical savanna", red_yellow_soil);
   ("tropical", red_yellow_soil);
   ("subtropical monsoon", subtropical_soil);
   ("subtropical", subtropical_soil);
   ("temperate", brown_earth_soil);
   ("polar", tundra_soil)]%string.

(** The display name of a place: the name, then the region and the
    country, each after a comma and only when it is not empty. *)
Definition display_name (name admin1 country : string) : string :=
  (name
   ++ (if String.eqb admin1 EmptyString then EmptyString else ", " ++ admin1)
   ++ (if String.eqb country EmptyString then EmptyString else ", " ++ country))%string.

(** The elements of a list that a list of flags marks. *)
Fixpoint select {A : Type} (flags : list bool) (l : list A) : list A :=
  match flags, l with
  | b :: flags', x :: l' => if b then x :: select flags' l' else select flags' l'
  | _, _ => []
  end.

(** The sentences a soil profile can give rise to, in rule order. *)
Definition all_sentences (soil : SoilProfile) : list string :=
  [soil_type_sentence soil; erosion_sentence; heat_sentence; cool_sentence;
   rainfall_sentence; wind_sentence; best_crop_sentence soil;
   fertility_sentence soil].

(** An exception of the language's own operations, as opposed to one
    from the HTTP library. *)
Definition builtin_error (e : exn) : Prop :=
  match e with
  | RequestException _ => False
  | _ => True
  end.

(** A forecast service that answers 503. *)
Definition failing_forecast (latitude longitude : value) : http_outcome :=
  HttpFailure "503 Server Error".

(** The report for Pune under [no_code_forecast]. *)
Definition pune_report : report := {|
  location_name := "Pune, Maharashtra, India";
  latitude := VNum 18.52;
  longitude := VNum 73.86;
  temperature := VInt 28;
  humidity := VStr "N/A";
  precipitation := VInt 0;
  wind_speed := VInt 12;
  condition := "Clear sky";
  climate_zone := "tropical savanna";
  soil := red_yellow_soil;
  advice := pune_advice
|}.

(** A geocoder that places Oslo. *)
Definition oslo_geocoding (location : string) : http_outcome :=
  HttpJson (VDict [("results"%string,
    VList [VDict [("name"%string, VStr "Oslo");
                  ("latitude"%string, VNum 59.91);
                  ("longitude"%string, VNum 10.75);
                  ("country"%string, VStr "Norway")]])]).

(** A forecast whose daily values are [null], as the service sends them
    when it has none. *)
Definition null_daily_body : list (string * value) :=
  [("current"%string, VDict no_code_current);
   ("daily"%string,
      VDict [("temperature_2m_max"%string, VList [VNone]);
             ("precipitation_sum"%string, VList [VNone])])].

Definition null_daily_forecast (latitude longitude : value) : http_outcome :=
  HttpJson (VDict null_daily_body).

(** A forecast whose current block has no weather code and whose daily
    series are there and empty. *)
Definition no_code_empty_daily_body : list (string * value) :=
  [("current"%string, VDict no_code_current);
   ("daily"%string,
      VDict [("temperature_2m_max"%string, VList []);
             ("precipitation_sum"%string, VList [])])].

Definition no_code_empty_daily_forecast (latitude longitude : value) : http_outcome :=
  HttpJson (VDict no_code_empty_daily_body).

Local Close Scope Q_scope.

(** * Properties *)

Local Open Scope Q_scope.

(** ** Comparisons of rationals *)

Lemma Qle_bool_false (x y : Q) : Qle_bool x y = false <-> y < x.
Proof.
  split; intro H.
  - apply Qnot_le_lt. intro Hle. apply Qle_bool_iff in Hle. congruence.
  - destruct (Qle_bool x y) eqn:E; [|reflexivity].
    apply Qle_bool_iff in E. exfalso. exact (Qlt_not_le _ _ H E).
Qed.

Lemma Qgt_bool_true (q c : Q) : Qgt_bool q c = true <-> c < q.
Proof.
  unfold Qgt_bool. rewrite negb_true_iff. apply Qle_bool_false.
Qed.

Lemma Qgt_bool_false (q c : Q) : Qgt_bool q c = false <-> q <= c.
Proof.
  unfold Qgt_bool. rewrite negb_false_iff. apply Qle_bool_iff.
Qed.

Lemma Qlt_bool_true (q c : Q) : Qlt_bool q c = true <-> q < c.
Proof.
  unfold Qlt_bool. rewrite negb_true_iff. apply Qle_bool_false.
Qed.

Lemma Qlt_bool_false (q c : Q) : Qlt_bool q c = false <-> c <= q.
Proof.
  unfold Qlt_bool. rewrite negb_false_iff. apply Qle_bool_iff.
Qed.

(** Turns every boolean comparison in the context into the order fact it
    decides. *)
Ltac reflect_Q :=
  repeat match goal with
  | H : Qle_bool _ _ = true |- _ => apply Qle_bool_iff in H
  | H : Qle_bool _ _ = false |- _ => apply Qle_bool_false in H
  | H : Qgt_bool _ _ = true |- _ => apply Qgt_bool_true in H
  | H : Qgt_bool _ _ = false |- _ => apply Qgt_bool_false in H
  | H : Qlt_bool _ _ = true |- _ => apply Qlt_bool_true in H
  | H : Qlt_bool _ _ = false |- _ => apply Qlt_bool_false in H
  end.

(** Splits on the outcome of the first band test in the goal. *)
Ltac split_band :=
  match goal with
  | |- context [Qle_bool ?a ?b] => destruct (Qle_bool a b) eqn:?
  end.

Lemma Qeq_bool_inject_Z (k n : Z) :
  Qeq_bool (inject_Z k) (inject_Z n) = Z.eqb k n.
Proof.
  unfold Qeq_bool, inject_Z. simpl. now rewrite !Z.mul_1_r.
Qed.

(** ** Substrings *)

Lemma prefix_append (n h : string) :
  String.prefix n h = true <-> exists post, h = (n ++ post)%string.
Proof.
  revert h. induction n as [|c n IH]; intro h.
  - split; [intros _; now exists h | intros _; now destruct h].
  - destruct h as [|c' h]; simpl.
    + split; [discriminate | intros [post H]; discriminate].
    + destruct (Ascii.ascii_dec c c') as [->|Hne].
      * rewrite IH. split; intros [post H]; exists post.
        -- now rewrite H.
        -- now inversion H.
      * split; [discriminate | intros [post H]; simpl in H; congruence].
Qed.

(** [str_contains] decides occurrence as a contiguous substring. *)
Lemma str_contains_spec (n h : string) :
  str_contains n h = true <-> exists pre post, h = (pre ++ n ++ post)%string.
Proof.
  induction h as [|c h IH]; cbn [str_contains].
  - rewrite orb_false_r, prefix_append. split.
    + intros [post H]. now exists EmptyString, post.
    + intros [pre [post H]]. destruct pre; simpl in H; [now exists post | discriminate].
  - rewrite orb_true_iff, prefix_append, IH. split.
    + intros [[post H] | [pre [post H]]].
      * now exists EmptyString, post.
      * exists (String c pre), post. simpl. now rewrite H.
    + intros [pre [post H]]. destruct pre as [|c' pre]; simpl in H.
      * left. now exists post.
      * right. inversion H. now exists pre, post.
Qed.

(** ** The weather-code table *)

Lemma find_code_key (n : Z) (table : list (Z * string)) (label : string) :
  NoDup (map fst table) -> In (n, label) table ->
  find_code (inject_Z n) table = Some label.
Proof.
  induction table as [|[k l] rest IH]; simpl; intros Hnd Hin; [contradiction|].
  inversion Hnd as [|? ? Hk Hrest]; subst.
  rewrite Qeq_bool_inject_Z.
  destruct Hin as [Heq | Hin].
  - inversion Heq; subst. now rewrite Z.eqb_refl.
  - destruct (Z.eqb_spec k n) as [->|_]; [|now apply IH].
    exfalso. apply Hk. change n with (fst (n, label)). now apply in_map.
Qed.

Lemma find_code_absent (n : Z) (table : list (Z * string)) :
  ~ In n (map fst table) -> find_code (inject_Z n) table = None.
Proof.
  induction table as [|[k l] rest IH]; simpl; intro Hn; [reflexivity|].
  rewrite Qeq_bool_inject_Z.
  destruct (Z.eqb_spec k n) as [->|_]; [exfalso; auto | apply IH; auto].
Qed.

Lemma weather_codes_NoDup : NoDup (map fst weather_codes).
Proof.
  simpl. repeat (constructor; [simpl; intuition discriminate|]). constructor.
Qed.

(** C6: [interpret_weather_code] returns a label for every integer, with
    no exception: the label the table gives for each of its 24 codes,
    and ["Unknown"] for every integer that is not a key of the table; so
    61 is ["Slight rain"] and 9999 is ["Unknown"]. *)
Theorem interpret_weather_code_total (n : Z) :
  (exists label, interpret_weather_code (VInt n) = Ok label) /\
  (forall label, In (n, label) weather_codes ->
     interpret_weather_code (VInt n) = Ok label) /\
  (~ In n (map fst weather_codes) ->
     interpret_weather_code (VInt n) = Ok "Unknown"%string) /\
  interpret_weather_code (VInt 61) = Ok "Slight rain"%string /\
  interpret_weather_code (VInt 9999) = Ok "Unknown"%string.
Proof.
  unfold interpret_weather_code, VInt; simpl as_number.
  repeat split.
  - eexists. reflexivity.
  - intros label Hin.
    now rewrite (find_code_key n weather_codes label weather_codes_NoDup Hin).
  - intro Hn. now rewrite find_code_absent.
Qed.

(** ** The climate classifier *)

Lemma zone_prefix_band (lat : Q) :
  zone_prefix (VNum lat) =
  Ok (if Qle_bool (Qabs lat) 23.5 then Some "tropical"%string
      else if Qle_bool (Qabs lat) 35 then Some "subtropical"%string
      else if Qle_bool (Qabs lat) 66 then Some "temperate"%string
      else None).
Proof.
  unfold zone_prefix, abs; simpl. now repeat split_band.
Qed.

(** C4: [get_climate_zone] follows the ordered algorithm of the
    specification.  Above 66 degrees of absolute latitude the zone is
    polar whatever the temperature and precipitation arguments are; in
    the tropical band it is rainforest when temp > 25 and precip > 60,
    savanna when only temp > 25, and tropical otherwise; in the
    subtropical band it is subtropical monsoon when precip > 20 and
    subtropical otherwise; the remaining band is temperate.  The listed
    examples hold, the two at latitude 30 for every temperature. *)
Theorem get_climate_zone_algorithm (lat t p : Q) :
  (66 < Qabs lat ->
     forall temp precip,
       get_climate_zone (VNum lat) temp precip = Ok "polar"%string) /\
  (Qabs lat <= 23.5 -> 25 < t -> 60 < p ->
     get_climate_zone (VNum lat) (VNum t) (VNum p) = Ok "tropical rainforest"%string) /\
  (Qabs lat <= 23.5 -> 25 < t -> p <= 60 ->
     get_climate_zone (VNum lat) (VNum t) (VNum p) = Ok "tropical savanna"%string) /\
  (Qabs lat <= 23.5 -> t <= 25 ->
     forall precip,
       get_climate_zone (VNum lat) (VNum t) precip = Ok "tropical"%string) /\
  (23.5 < Qabs lat /\ Qabs lat <= 35 -> 20 < p ->
     forall temp,
       get_climate_zone (VNum lat) temp (VNum p) = Ok "subtropical monsoon"%string) /\
  (23.5 < Qabs lat /\ Qabs lat <= 35 -> p <= 20 ->
     forall temp,
       get_climate_zone (VNum lat) temp (VNum p) = Ok "subtropical"%string) /\
  (35 < Qabs lat /\ Qabs lat <= 66 ->
     forall temp precip,
       get_climate_zone (VNum lat) temp precip = Ok "temperate"%string) /\
  get_climate_zone (VInt 20) (VInt 30) (VInt 70) = Ok "tropical rainforest"%string /\
  get_climate_zone (VInt 20) (VInt 30) (VInt 10) = Ok "tropical savanna"%string /\
  get_climate_zone (VInt 20) (VInt 10) (VInt 10) = Ok "tropical"%string /\
  (forall temp,
     get_climate_zone (VInt 30) temp (VInt 25) = Ok "subtropical monsoon"%string) /\
  (forall temp,
     get_climate_zone (VInt 30) temp (VInt 5) = Ok "subtropical"%string).
Proof.
  unfold get_climate_zone. rewrite zone_prefix_band.
  set (a := Qabs lat).
  repeat match goal with |- _ /\ _ => split end;
    try (intros; reflexivity).
  - intros Ha temp precip. cbn [bind].
    repeat split_band; reflect_Q; solve [reflexivity | lra].
  - intros Ha Ht Hp. cbn [bind].
    split_band; reflect_Q; [|lra].
    unfold num_gt; simpl.
    apply Qgt_bool_true in Ht, Hp. now rewrite Ht, Hp.
  - intros Ha Ht Hp. cbn [bind].
    split_band; reflect_Q; [|lra].
    unfold num_gt; simpl.
    apply Qgt_bool_true in Ht. apply Qgt_bool_false in Hp. now rewrite Ht, Hp.
  - intros Ha Ht precip. cbn [bind].
    split_band; reflect_Q; [|lra].
    unfold num_gt; simpl.
    apply Qgt_bool_false in Ht. now rewrite Ht.
  - intros [Hlo Hhi] Hp temp. cbn [bind].
    repeat split_band; reflect_Q; try lra.
    unfold num_gt; simpl.
    apply Qgt_bool_true in Hp. now rewrite Hp.
  - intros [Hlo Hhi] Hp temp. cbn [bind].
    repeat split_band; reflect_Q; try lra.
    unfold num_gt; simpl.
    apply Qgt_bool_false in Hp. now rewrite Hp.
  - intros [Hlo Hhi] temp precip. cbn [bind].
    repeat split_band; reflect_Q; solve [reflexivity | lra].
Qed.

(** ** The soil table *)

Lemma wet_label_orb (zone : string) :
  str_contains "rainforest" (lower zone) || str_contains "monsoon" (lower zone) = true
  <-> wet_label zone.
Proof. unfold wet_label. apply orb_true_iff. Qed.

Lemma predict_soil_characteristics_band (lat : Q) (zone : string) :
  predict_soil_characteristics (VNum lat) zone =
  Ok (if Qle_bool (Qabs lat) 23.5 then
        if str_contains "rainforest" (lower zone) || str_contains "monsoon" (lower zone)
        then lateritic_soil else red_yellow_soil
      else if Qle_bool (Qabs lat) 35 then subtropical_soil
      else if Qle_bool (Qabs lat) 66 then brown_earth_soil
      else tundra_soil).
Proof.
  unfold predict_soil_characteristics, abs; simpl.
  repeat split_band; try reflexivity.
  now destruct (_ || _).
Qed.

(** Whatever the latitude is, the result is one of the five profiles. *)
Lemma predict_soil_characteristics_range (lat : value) (zone : string) (p : SoilProfile) :
  predict_soil_characteristics lat zone = Ok p ->
  In p [lateritic_soil; red_yellow_soil; subtropical_soil; brown_earth_soil; tundra_soil].
Proof.
  unfold predict_soil_characteristics, abs.
  destruct (as_number lat) as [q|]; simpl; [|discriminate].
  repeat split_band; try destruct (_ || _); intro H; inversion H; simpl; tauto.
Qed.

(** C3: for every latitude and zone label the soil lookup returns one of
    the five profiles, chosen by latitude band, the label being consulted
    in the tropical band only: Lateritic iff |lat| <= 23.5 and the
    lowercased label contains "rainforest" or "monsoon", Red and Yellow
    iff |lat| <= 23.5 otherwise, Subtropical Loam/Alluvial iff
    23.5 < |lat| <= 35 (also for "subtropical monsoon"), Brown
    Earth/Forest iff 35 < |lat| <= 66, Tundra iff |lat| > 66. *)
Theorem predict_soil_characteristics_policy (lat : Q) (zone : string) :
  exists p,
    predict_soil_characteristics (VNum lat) zone = Ok p /\
    In p [lateritic_soil; red_yellow_soil; subtropical_soil;
          brown_earth_soil; tundra_soil] /\
    (p = lateritic_soil <-> Qabs lat <= 23.5 /\ wet_label zone) /\
    (p = red_yellow_soil <-> Qabs lat <= 23.5 /\ ~ wet_label zone) /\
    (p = subtropical_soil <-> 23.5 < Qabs lat /\ Qabs lat <= 35) /\
    (p = brown_earth_soil <-> 35 < Qabs lat /\ Qabs lat <= 66) /\
    (p = tundra_soil <-> 66 < Qabs lat) /\
    predict_soil_characteristics (VInt 30) "subtropical monsoon" = Ok subtropical_soil /\
    predict_soil_characteristics (VInt 10) "tropical rainforest" = Ok lateritic_soil /\
    predict_soil_characteristics (VInt 10) "tropical savanna" = Ok red_yellow_soil.
Proof.
  eexists. split; [apply predict_soil_characteristics_band|].
  split; [eapply predict_soil_characteristics_range, predict_soil_characteristics_band|].
  set (a := Qabs lat).
  pose proof (wet_label_orb zone) as Hwet.
  destruct (Qle_bool a 23.5) eqn:E1;
    [destruct (_ || _) eqn:Ew
    | destruct (Qle_bool a 35) eqn:E2; [|destruct (Qle_bool a 66) eqn:E3]];
    reflect_Q;
    repeat match goal with |- _ /\ _ => split end;
    try reflexivity;
    try (split; [discriminate | intros [? ?]; lra]);
    try (split; [discriminate | intro; lra]);
    try (split; [intros _; split; lra | reflexivity]);
    try (split; [intros _; lra | reflexivity]).
  - split; [intros _; split; [assumption | now apply Hwet] | reflexivity].
  - split; [discriminate | intros [_ Hn]; exfalso; apply Hn; now apply Hwet].
  - split; [discriminate | intros [_ Hw]; apply Hwet in Hw; discriminate].
  - split; [intros _; split; [assumption|] | reflexivity].
    intro Hw. apply Hwet in Hw. discriminate.
Qed.

(** C10: on a profile returned by [predict_soil_characteristics] the
    erosion test of [generate_advice] holds exactly for the Lateritic
    profile; the "Medium to High" descriptor of the Red and Yellow
    profile does not trigger it. *)
Theorem erosion_risk_lateritic_only (lat : value) (zone : string) (p : SoilProfile) :
  predict_soil_characteristics lat zone = Ok p ->
  (erosion_risk p = true <-> p = lateritic_soil) /\
  erosion_risk red_yellow_soil = false.
Proof.
  intro H. apply predict_soil_characteristics_range in H.
  split; [|reflexivity].
  simpl in H.
  destruct H as [<-|[<-|[<-|[<-|[<-|[]]]]]];
    (split; [try discriminate; reflexivity | try discriminate; reflexivity]).
Qed.

Lemma erosion_risk_lateritic_only_witness :
  predict_soil_characteristics (VInt 10) "tropical rainforest" = Ok lateritic_soil /\
  ((erosion_risk lateritic_soil = true <-> lateritic_soil = lateritic_soil) /\
   erosion_risk red_yellow_soil = false).
Proof.
  split; [reflexivity|].
  apply (erosion_risk_lateritic_only (VInt 10) "tropical rainforest" lateritic_soil).
  reflexivity.
Defined.

(** ** The advisory composer *)

Lemma in_when (x : string) (b : bool) (sentence : string) :
  In x (when b sentence) <-> b = true /\ x = sentence.
Proof.
  destruct b; simpl; intuition congruence.
Qed.

Lemma in_rules_1_to_7 (x : string) (soil : SoilProfile) (t p w : Q) (rc : bool) :
  In x (rules_1_to_7 soil t p w rc) <->
  x = soil_type_sentence soil \/
  (erosion_risk soil = true /\ x = erosion_sentence) \/
  (Qgt_bool t 30 = true /\ x = heat_sentence) \/
  (negb (Qgt_bool t 30) && Qlt_bool t 10 = true /\ x = cool_sentence) \/
  (Qgt_bool p 0 || rc = true /\ x = rainfall_sentence) \/
  (Qgt_bool w 30 = true /\ x = wind_sentence) \/
  x = best_crop_sentence soil \/
  x = fertility_sentence soil.
Proof.
  unfold rules_1_to_7.
  rewrite !in_app_iff, !in_when. simpl. intuition congruence.
Qed.

(** The sentences are told apart by their first bytes, whatever the soil
    profile puts into the three that quote it. *)
Ltac distinct_sentences :=
  unfold soil_type_sentence, best_crop_sentence, fertility_sentence,
    erosion_sentence, heat_sentence, cool_sentence, rainfall_sentence,
    wind_sentence, stable_sentence, nl;
  simpl; discriminate.

Lemma heat_in_rules (soil : SoilProfile) (t p w : Q) (rc : bool) :
  In heat_sentence (rules_1_to_7 soil t p w rc) <-> 30 < t.
Proof.
  rewrite in_rules_1_to_7, <- Qgt_bool_true. split.
  - intros [H|[[_ H]|[[H _]|[[_ H]|[[_ H]|[[_ H]|[H|H]]]]]]];
      solve [assumption | exfalso; revert H; distinct_sentences].
  - intro H. right; right; left. now split.
Qed.

Lemma cool_in_rules (soil : SoilProfile) (t p w : Q) (rc : bool) :
  In cool_sentence (rules_1_to_7 soil t p w rc) <-> t < 10.
Proof.
  rewrite in_rules_1_to_7. split.
  - intros [H|[[_ H]|[[_ H]|[[H _]|[[_ H]|[[_ H]|[H|H]]]]]]];
      try solve [exfalso; revert H; distinct_sentences].
    apply andb_true_iff in H. now apply Qlt_bool_true.
  - intro H. right; right; right; left. split; [|reflexivity].
    apply andb_true_iff. split; [|now apply Qlt_bool_true].
    apply negb_true_iff, Qgt_bool_false. lra.
Qed.

Lemma rainfall_in_rules (soil : SoilProfile) (t p w : Q) (rc : bool) :
  In rainfall_sentence (rules_1_to_7 soil t p w rc) <-> 0 < p \/ rc = true.
Proof.
  rewrite in_rules_1_to_7, <- Qgt_bool_true, <- orb_true_iff. split.
  - intros [H|[[_ H]|[[_ H]|[[_ H]|[[H _]|[[_ H]|[H|H]]]]]]];
      solve [assumption | exfalso; revert H; distinct_sentences].
  - intro H. do 4 right; left. now split.
Qed.

Lemma wind_in_rules (soil : SoilProfile) (t p w : Q) (rc : bool) :
  In wind_sentence (rules_1_to_7 soil t p w rc) <-> 30 < w.
Proof.
  rewrite in_rules_1_to_7, <- Qgt_bool_true. split.
  - intros [H|[[_ H]|[[_ H]|[[_ H]|[[_ H]|[[H _]|[H|H]]]]]]];
      solve [assumption | exfalso; revert H; distinct_sentences].
  - intro H. do 5 right; left. now split.
Qed.

Lemma stable_not_in_rules (soil : SoilProfile) (t p w : Q) (rc : bool) :
  ~ In stable_sentence (rules_1_to_7 soil t p w rc).
Proof.
  rewrite in_rules_1_to_7.
  intros [H|[[_ H]|[[_ H]|[[_ H]|[[_ H]|[[_ H]|[H|H]]]]]]];
    revert H; distinct_sentences.
Qed.

Lemma unconditional_in_rules (soil : SoilProfile) (t p w : Q) (rc : bool) :
  In (soil_type_sentence soil) (rules_1_to_7 soil t p w rc) /\
  In (best_crop_sentence soil) (rules_1_to_7 soil t p w rc) /\
  In (fertility_sentence soil) (rules_1_to_7 soil t p w rc).
Proof.
  rewrite !in_rules_1_to_7. intuition.
Qed.

(** The list [generate_advice] builds when the current block is a dict
    whose readings, each defaulted to 0 when missing, are numbers and
    whose weather code is hashable. *)
Lemma advice_sentences_readings (weather : value) (soil : SoilProfile)
    (current temp precip wind code : value) (t p w : Q) (label : string) :
  get weather "current" (VDict []) = Ok current ->
  get current "temperature_2m" (VInt 0) = Ok temp ->
  get current "precipitation" (VInt 0) = Ok precip ->
  get current "wind_speed_10m" (VInt 0) = Ok wind ->
  get current "weather_code" (VInt 0) = Ok code ->
  interpret_weather_code code = Ok label ->
  as_number temp = Some t ->
  as_number precip = Some p ->
  as_number wind = Some w ->
  advice_sentences weather soil =
  Ok (rules_1_to_7 soil t p w (code_in code rain_codes)).
Proof.
  intros Hc Ht Hp Hw Hk Hl Nt Np Nw.
  unfold advice_sentences, num_gt, num_lt.
  rewrite Hc; cbn [bind]. rewrite Ht; cbn [bind]. rewrite Hp; cbn [bind].
  rewrite Hw; cbn [bind]. rewrite Hk; cbn [bind]. rewrite Hl; cbn [bind].
  rewrite Nt, Np, Nw; cbn [bind].
  unfold rules_1_to_7, when, append.
  destruct (erosion_risk soil), (Qgt_bool t 30), (Qlt_bool t 10),
    (Qgt_bool p 0), (code_in code rain_codes), (Qgt_bool w 30); reflexivity.
Qed.

(** Conversely, whenever [generate_advice] gets as far as the join, the
    current block is a dict, its readings are numbers and the list is an
    instance of rules 1 to 7 on them. *)
Lemma advice_sentences_inv (weather : value) (soil : SoilProfile) (l : list string) :
  advice_sentences weather soil = Ok l ->
  exists current temp precip wind code t p w,
    get weather "current" (VDict []) = Ok current /\
    get current "temperature_2m" (VInt 0) = Ok temp /\
    get current "precipitation" (VInt 0) = Ok precip /\
    get current "wind_speed_10m" (VInt 0) = Ok wind /\
    get current "weather_code" (VInt 0) = Ok code /\
    as_number temp = Some t /\ as_number precip = Some p /\
    as_number wind = Some w /\
    l = rules_1_to_7 soil t p w (code_in code rain_codes).
Proof.
  unfold advice_sentences.
  destruct (get weather "current" (VDict [])) as [current|] eqn:Hc; cbn [bind]; [|discriminate].
  destruct (get current "temperature_2m" (VInt 0)) as [temp|] eqn:Ht; cbn [bind]; [|discriminate].
  destruct (get current "precipitation" (VInt 0)) as [precip|] eqn:Hp; cbn [bind]; [|discriminate].
  destruct (get current "wind_speed_10m" (VInt 0)) as [wind|] eqn:Hw; cbn [bind]; [|discriminate].
  destruct (get current "weather_code" (VInt 0)) as [code|] eqn:Hk; cbn [bind]; [|discriminate].
  destruct (interpret_weather_code code) as [label|] eqn:Hl; cbn [bind]; [|discriminate].
  unfold num_gt, num_lt.
  destruct (as_number temp) as [t|] eqn:Nt; cbn [bind]; [|discriminate].
  destruct (as_number precip) as [p|] eqn:Np; cbn [bind];
    [|destruct (Qgt_bool t 30); cbn [bind]; discriminate].
  destruct (as_number wind) as [w|] eqn:Nw; cbn [bind];
    [|destruct (Qgt_bool t 30); cbn [bind]; discriminate].
  intro H. exists current, temp, precip, wind, code, t, p, w.
  repeat match goal with |- _ /\ _ => split; [first [reflexivity | assumption]|] end.
  unfold rules_1_to_7, when, append.
  destruct (erosion_risk soil), (Qgt_bool t 30), (Qlt_bool t 10),
    (Qgt_bool p 0), (code_in code rain_codes), (Qgt_bool w 30);
    cbn [bind] in H; inversion H; reflexivity.
Qed.

Lemma code_in_int (n : Z) (codes : list Z) :
  code_in (VInt n) codes = true <-> In n codes.
Proof.
  unfold code_in, VInt; simpl. rewrite existsb_exists. split.
  - intros [k [Hin Hk]]. rewrite Qeq_bool_inject_Z in Hk.
    apply Z.eqb_eq in Hk. now subst.
  - intro Hin. exists n. split; [assumption|].
    rewrite Qeq_bool_inject_Z. apply Z.eqb_refl.
Qed.

Lemma advice_sentences_snapshot (s : WeatherSnapshot) (soil : SoilProfile) :
  advice_sentences (weather_of s) soil =
  Ok (rules_1_to_7 soil (snap_temperature s) (snap_precipitation s)
        (snap_wind_speed s) (code_in (VInt (snap_weather_code s)) rain_codes)).
Proof.
  eapply advice_sentences_readings; reflexivity.
Qed.

(** C5: for every snapshot and soil profile the composer returns the
    sentences of rules 1 to 7 in that order, joined by newlines, the
    best-crop sentence opening with an empty line.  The heat sentence is
    there iff the temperature is above 30 and the cold one iff it is below
    10, so never both, and neither from 10 to 30; the rainfall sentence is
    there iff the precipitation is positive or the code is one of 61, 63,
    65, 80, 81, 82; the wind sentence iff the wind is above 30.  The two
    examples of the specification follow. *)
Theorem generate_advice_rules (s : WeatherSnapshot) (soil : SoilProfile) :
  exists l,
    advice_sentences (weather_of s) soil = Ok l /\
    generate_advice (weather_of s) soil = Ok (join nl l) /\
    l = rules_1_to_7 soil (snap_temperature s) (snap_precipitation s)
          (snap_wind_speed s) (code_in (VInt (snap_weather_code s)) rain_codes) /\
    String.prefix nl (best_crop_sentence soil) = true /\
    (In heat_sentence l <-> 30 < snap_temperature s) /\
    (In cool_sentence l <-> snap_temperature s < 10) /\
    ~ (In heat_sentence l /\ In cool_sentence l) /\
    (10 <= snap_temperature s /\ snap_temperature s <= 30 ->
       ~ In heat_sentence l /\ ~ In cool_sentence l) /\
    (In rainfall_sentence l <->
       0 < snap_precipitation s \/ In (snap_weather_code s) [61; 63; 65; 80; 81; 82]%Z) /\
    (In wind_sentence l <-> 30 < snap_wind_speed s) /\
    (exists l1,
       advice_sentences (weather_of hot_dry_snapshot) soil = Ok l1 /\
       In heat_sentence l1 /\ ~ In cool_sentence l1 /\
       ~ In rainfall_sentence l1 /\ ~ In wind_sentence l1) /\
    (exists l2,
       advice_sentences (weather_of cold_rain_snapshot) soil = Ok l2 /\
       In cool_sentence l2 /\ In rainfall_sentence l2).
Proof.
  eexists. split; [apply advice_sentences_snapshot|].
  split; [unfold generate_advice; now rewrite advice_sentences_snapshot|].
  split; [reflexivity|].
  split; [reflexivity|].
  rewrite heat_in_rules, cool_in_rules, rainfall_in_rules, wind_in_rules,
    code_in_int.
  repeat match goal with |- _ /\ _ => split end; try tauto; try lra.
  - eexists. split; [apply advice_sentences_snapshot|].
    rewrite heat_in_rules, cool_in_rules, rainfall_in_rules, wind_in_rules.
    simpl. repeat split; try lra.
    intros [H|H]; [lra | discriminate].
  - eexists. split; [apply advice_sentences_snapshot|].
    rewrite cool_in_rules, rainfall_in_rules.
    simpl. split; [lra | now right].
Qed.

(** The five profiles and the sixteen ways the conditional rules can
    fire give eighty advisory texts; none of them quotes the fallback. *)
Lemma stable_not_in_text (soil : SoilProfile) (t p w : Q) (rc : bool) :
  In soil [lateritic_soil; red_yellow_soil; subtropical_soil;
           brown_earth_soil; tundra_soil] ->
  str_contains stable_sentence (join nl (rules_1_to_7 soil t p w rc)) = false.
Proof.
  intro Hin. unfold rules_1_to_7.
  destruct (Qgt_bool t 30), (Qlt_bool t 10), (Qgt_bool p 0 || rc), (Qgt_bool w 30);
    simpl in Hin;
    destruct Hin as [<-|[<-|[<-|[<-|[<-|[]]]]]]; vm_compute; reflexivity.
Qed.

(** Whatever the weather argument and the soil profile, the list
    that [generate_advice] joins holds the soil-type, best-crop and
    fertility sentences, so it is never empty and the "stable
    conditions" fallback is never appended; on every snapshot the call
    does return such a list; and on the profiles of the soil table the
    returned text does not contain the fallback sentence either. *)
Lemma stable_fallback_list (weather : value) (soil : SoilProfile) :
  (forall l, advice_sentences weather soil = Ok l ->
     In (soil_type_sentence soil) l /\
     In (best_crop_sentence soil) l /\
     In (fertility_sentence soil) l /\
     l <> [] /\
     ~ In stable_sentence l) /\
  (forall s, exists l,
     advice_sentences (weather_of s) soil = Ok l /\
     In (soil_type_sentence soil) l /\
     In (best_crop_sentence soil) l /\
     In (fertility_sentence soil) l /\
     ~ In stable_sentence l) /\
  (forall lat zone text,
     predict_soil_characteristics lat zone = Ok soil ->
     generate_advice weather soil = Ok text ->
     str_contains stable_sentence text = false).
Proof.
  split; [|split].
  - intros l H. apply advice_sentences_inv in H.
    destruct H as (_ & _ & _ & _ & code & t & p & w & _ & _ & _ & _ & _ & _ & _ & _ & ->).
    pose proof (unconditional_in_rules soil t p w (code_in code rain_codes))
      as (H1 & H2 & H3).
    repeat match goal with |- _ /\ _ => split end; try assumption.
    + discriminate.
    + apply stable_not_in_rules.
  - intros s. eexists. split; [apply advice_sentences_snapshot|].
    repeat match goal with |- _ /\ _ => split end;
      try apply unconditional_in_rules.
    apply stable_not_in_rules.
  - intros lat zone text Hsoil Htext.
    apply predict_soil_characteristics_range in Hsoil.
    unfold generate_advice in Htext.
    destruct (advice_sentences weather soil) as [l|] eqn:Hl; [|discriminate].
    apply advice_sentences_inv in Hl.
    destruct Hl as (_ & _ & _ & _ & code & t & p & w & _ & _ & _ & _ & _ & _ & _ & _ & ->).
    cbn [bind] in Htext. inversion Htext.
    now apply stable_not_in_text.
Qed.

(** ** Missing current readings *)




(** ** The pipeline *)

Lemma get_field_or (c : list (string * value)) (k : string) (default : value) :
  get (VDict c) k default = Ok (field_or c k default).
Proof. reflexivity. Qed.

(** C1 fails on the code for the empty series.  The daily values are 0
    when the ["daily"] object is missing or empty and when the series is
    missing from it, but a series that is present and empty makes the
    subscript [[0]] raise [IndexError], which nothing in the pipeline
    catches. *)
Theorem empty_daily_series_raises :
  (forall key, daily_first (VDict []) key = Ok (VInt 0)) /\
  (forall d key, lookup key d = None -> daily_first (VDict d) key = Ok (VInt 0)) /\
  (forall d key, lookup key d = Some (VList []) ->
     daily_first (VDict d) key = Raise IndexError) /\
  get_agricultural_recommendation pune_geocoding empty_daily_forecast no_str "Pune"
  = ([], Raise IndexError).
Proof.
  split; [reflexivity|]. split; [|split].
  - intros d key Hk. unfold daily_first.
    destruct (truthy (VDict d)); [|reflexivity].
    cbn [get bind]. now rewrite Hk.
  - intros d key Hk. unfold daily_first.
    destruct d as [|[k v] d]; [discriminate|].
    cbn [truthy get bind]. now rewrite Hk.
  - reflexivity.
Qed.

Section Pipeline.

Variable geocoding_api : string -> http_outcome.
Variable weather_api : value -> value -> http_outcome.
Variable str_of : value -> string.

Lemma parse_coordinates_no_results (d : list (string * value)) :
  lookup "results" d = None \/ lookup "results" d = Some (VList []) ->
  parse_coordinates str_of (VDict d) = Ok None.
Proof.
  unfold parse_coordinates. cbn [contains getitem bind].
  intros [H|H]; rewrite H; reflexivity.
Qed.

Lemma not_found_short_circuit (location : string) :
  snd (get_coordinates geocoding_api str_of location) = None ->
  get_agricultural_recommendation geocoding_api weather_api str_of location =
  (fst (get_coordinates geocoding_api str_of location),
   Ok (ErrorResult ("Could not find location: " ++ location))).
Proof.
  unfold get_agricultural_recommendation.
  destruct (get_coordinates geocoding_api str_of location) as [log coords].
  simpl. now intros ->.
Qed.

(** C2, amended: the geocoder's two failures are not told apart.  A
    transport or parsing failure prints its cause and returns [None];
    an answer with no results, or an empty list of them, returns
    [None] and prints nothing; and whenever [get_coordinates] returns
    [None] the pipeline returns, without raising, the one error result
    "Could not find location: " followed by the location. *)
Theorem geocoding_failures_merge (location : string) :
  (forall cause,
     geocoding_api location = HttpFailure cause ->
     get_coordinates geocoding_api str_of location =
     ([GeocodingError (RequestException cause)], None)) /\
  (forall d,
     geocoding_api location = HttpJson (VDict d) ->
     lookup "results" d = None \/ lookup "results" d = Some (VList []) ->
     get_coordinates geocoding_api str_of location = ([], None)) /\
  (forall data e,
     geocoding_api location = HttpJson data ->
     parse_coordinates str_of data = Raise e ->
     get_coordinates geocoding_api str_of location = ([GeocodingError e], None)) /\
  (snd (get_coordinates geocoding_api str_of location) = None ->
   get_agricultural_recommendation geocoding_api weather_api str_of location =
   (fst (get_coordinates geocoding_api str_of location),
    Ok (ErrorResult ("Could not find location: " ++ location)))).
Proof.
  repeat match goal with |- _ /\ _ => split end.
  - intros cause H. unfold get_coordinates. now rewrite H.
  - intros d H Hres. unfold get_coordinates.
    now rewrite H, (parse_coordinates_no_results d Hres).
  - intros data e H He. unfold get_coordinates. now rewrite H, He.
  - apply not_found_short_circuit.
Qed.

(** When the geocoder has answered and the forecast is a non-empty
    dict whose current block (the empty dict when there is none) has no
    ["weather_code"], the code defaults to 0 and
    the report, which the pipeline returns as soon as the
    classification, the soil lookup and the advice go through, gives
    the condition as "Clear sky"; of the other summary fields a
    missing temperature, humidity or wind speed is "N/A" and a missing
    precipitation is 0. *)
Theorem missing_weather_code_clear_sky
    (location : string) (log : list event) (lat lon : value) (name : string)
    (d c : list (string * value)) (temp_max precip_sum : value)
    (zone : string) (soil_info : SoilProfile) (text : string) :
  get_coordinates geocoding_api str_of location = (log, Some (lat, lon, name)) ->
  weather_api lat lon = HttpJson (VDict d) ->
  d <> [] ->
  field_or d "current" (VDict []) = VDict c ->
  lookup "weather_code" c = None ->
  daily_first (field_or d "daily" (VDict [])) "temperature_2m_max" = Ok temp_max ->
  daily_first (field_or d "daily" (VDict [])) "precipitation_sum" = Ok precip_sum ->
  get_climate_zone lat temp_max precip_sum = Ok zone ->
  predict_soil_characteristics lat zone = Ok soil_info ->
  generate_advice (VDict d) soil_info = Ok text ->
  exists r,
    get_agricultural_recommendation geocoding_api weather_api str_of location =
      (log, Ok (Report r)) /\
    condition r = "Clear sky"%string /\
    interpret_weather_code (VInt 0) = Ok (condition r) /\
    temperature r = field_or c "temperature_2m" (VStr "N/A") /\
    humidity r = field_or c "relative_humidity_2m" (VStr "N/A") /\
    wind_speed r = field_or c "wind_speed_10m" (VStr "N/A") /\
    precipitation r = field_or c "precipitation" (VInt 0) /\
    (lookup "temperature_2m" c = None -> temperature r = VStr "N/A") /\
    (lookup "relative_humidity_2m" c = None -> humidity r = VStr "N/A") /\
    (lookup "wind_speed_10m" c = None -> wind_speed r = VStr "N/A") /\
    (lookup "precipitation" c = None -> precipitation r = VInt 0) /\
    location_name r = name /\ latitude r = lat /\ longitude r = lon /\
    climate_zone r = zone /\ soil r = soil_info /\ advice r = text.
Proof.
  intros Hgeo Hwx Hd Hblock Hcode Htmax Hpsum Hzone Hsoil Hadv.
  eexists. split.
  - unfold get_agricultural_recommendation, fetch_combined_data.
    rewrite Hgeo, Hwx.
    assert (Htruthy : truthy (VDict d) = true)
      by (destruct d; [contradiction | reflexivity]).
    rewrite Htruthy. cbn [negb].
    rewrite app_nil_r.
    assert (Hdefault : field_or c "weather_code" (VInt 0) = VInt 0)
      by (unfold field_or; now rewrite Hcode).
    unfold build_report.
    rewrite !get_field_or. cbn [bind].
    rewrite Htmax, Hpsum. cbn [bind].
    rewrite Hzone. cbn [bind]. rewrite Hsoil. cbn [bind].
    rewrite Hblock, !get_field_or. cbn [bind].
    rewrite Hdefault.
    change (interpret_weather_code (VInt 0)) with (@Ok string "Clear sky").
    cbn [bind]. rewrite Hadv. cbn [bind]. reflexivity.
  - cbn [condition temperature humidity wind_speed precipitation location_name
         latitude longitude climate_zone soil advice].
    unfold field_or.
    repeat match goal with |- _ /\ _ => split end; try reflexivity;
      intros ->; reflexivity.
Qed.

End Pipeline.

(** C2, as stated, fails: a geocoder that finds nothing and one that
    cannot be reached both make [get_coordinates] return [None] (the
    cause is printed and dropped), and the pipeline answers both with the
    same error result and the same message. *)
Lemma geocoding_failures_indistinguishable :
  get_coordinates no_match_geocoding no_str "Atlantis" = ([], None) /\
  get_coordinates unreachable_geocoding no_str "Atlantis" =
    ([GeocodingError (RequestException "Connection timed out")], None) /\
  snd (get_agricultural_recommendation no_match_geocoding no_code_forecast
         no_str "Atlantis") =
    Ok (ErrorResult "Could not find location: Atlantis") /\
  snd (get_agricultural_recommendation unreachable_geocoding no_code_forecast
         no_str "Atlantis") =
    Ok (ErrorResult "Could not find location: Atlantis").
Proof. repeat split. Qed.

Lemma geocoding_failures_merge_witness :
  snd (get_coordinates unreachable_geocoding no_str "Atlantis") = None /\
  get_agricultural_recommendation unreachable_geocoding no_code_forecast
    no_str "Atlantis" =
  (fst (get_coordinates unreachable_geocoding no_str "Atlantis"),
   Ok (ErrorResult "Could not find location: Atlantis")).
Proof.
  split; [reflexivity|].
  apply (proj2 (proj2 (proj2
    (geocoding_failures_merge unreachable_geocoding no_code_forecast
       no_str "Atlantis")))).
  reflexivity.
Defined.

Lemma missing_weather_code_clear_sky_witness :
  exists r,
    get_agricultural_recommendation pune_geocoding no_code_forecast no_str "Pune" =
      ([], Ok (Report r)) /\
    condition r = "Clear sky"%string /\
    humidity r = VStr "N/A" /\
    temperature r = VInt 28 /\
    climate_zone r = "tropical savanna"%string /\
    soil r = red_yellow_soil.
Proof.
  destruct (missing_weather_code_clear_sky pune_geocoding no_code_forecast no_str
              "Pune" [] (VNum 18.52) (VNum 73.86) "Pune, Maharashtra, India"
              no_code_body no_code_current
              (VInt 31) (VNum 2.5) "tropical savanna" red_yellow_soil pune_advice
              eq_refl eq_refl ltac:(discriminate) eq_refl eq_refl eq_refl eq_refl
              eq_refl eq_refl eq_refl)
    as (r & Hrun & Hcond & _ & Htemp & Hhum & _ & _ & _ & _ & _ & _ & _ & _ & _
        & Hzone & Hsoil & _).
  exists r. repeat split; assumption.
Defined.


(** * Further properties *)

(** ** Classification and soil together *)

Lemma zone_prefix_inv (lat : value) (band : option string) :
  zone_prefix lat = Ok band ->
  exists a,
    as_number lat = Some a /\
    band = (if Qle_bool (Qabs a) 23.5 then Some "tropical"%string
            else if Qle_bool (Qabs a) 35 then Some "subtropical"%string
            else if Qle_bool (Qabs a) 66 then Some "temperate"%string
            else None).
Proof.
  unfold zone_prefix, abs.
  destruct (as_number lat) as [a|]; cbn [bind]; [|discriminate].
  intro H. exists a. split; [reflexivity|].
  repeat split_band; now inversion H.
Qed.

Lemma predict_soil_characteristics_number (lat : value) (a : Q) (zone : string) :
  as_number lat = Some a ->
  predict_soil_characteristics lat zone =
  Ok (if Qle_bool (Qabs a) 23.5 then
        if str_contains "rainforest" (lower zone) || str_contains "monsoon" (lower zone)
        then lateritic_soil else red_yellow_soil
      else if Qle_bool (Qabs a) 35 then subtropical_soil
      else if Qle_bool (Qabs a) 66 then brown_earth_soil
      else tundra_soil).
Proof.
  intro Ha. unfold predict_soil_characteristics, abs. rewrite Ha. cbn [bind].
  repeat split_band; try reflexivity.
  now destruct (_ || _).
Qed.

Lemma zone_soil_in_table (lat temp precip : value) (zone : string) :
  get_climate_zone lat temp precip = Ok zone ->
  exists soil_info,
    predict_soil_characteristics lat zone = Ok soil_info /\
    In (zone, soil_info) zone_soil_table.
Proof.
  unfold get_climate_zone.
  destruct (zone_prefix lat) as [band|] eqn:Hband; cbn [bind]; [|discriminate].
  apply zone_prefix_inv in Hband. destruct Hband as (a & Ha & ->).
  intro H. eexists. split; [apply (predict_soil_characteristics_number _ a _ Ha)|].
  unfold num_gt in H.
  destruct (Qle_bool (Qabs a) 23.5);
    [|destruct (Qle_bool (Qabs a) 35); [|destruct (Qle_bool (Qabs a) 66)]];
    cbn [String.eqb Ascii.eqb Bool.eqb bind] in H.
  - destruct (as_number temp) as [t|]; cbn [bind] in H; [|discriminate].
    destruct (Qgt_bool t 25); cbn [bind] in H.
    + destruct (as_number precip) as [p|]; cbn [bind] in H; [|discriminate].
      destruct (Qgt_bool p 60); inversion H; subst zone; simpl; tauto.
    + inversion H; subst zone. simpl; tauto.
  - simpl in H.
    destruct (as_number precip) as [p|]; cbn [bind] in H; [|discriminate].
    destruct (Qgt_bool p 20); inversion H; subst zone; simpl; tauto.
  - simpl in H. inversion H; subst zone. simpl; tauto.
  - inversion H; subst zone. simpl; tauto.
Qed.

Lemma zone_soil_table_lateritic (zone : string) (soil_info : SoilProfile) :
  In (zone, soil_info) zone_soil_table ->
  (soil_info = lateritic_soil <-> zone = "tropical rainforest"%string).
Proof.
  simpl. intros [H|[H|[H|[H|[H|[H|[H|[]]]]]]]]; inversion H; subst;
    split; intro; solve [reflexivity | discriminate].
Qed.

(** Once the climate zone of a latitude is computed, whatever the daily
    values were, the soil lookup at that latitude with that zone cannot
    fail, and zone and soil go together as in [zone_soil_table]: the
    Lateritic profile is chosen exactly for "tropical rainforest", so the
    "monsoon" half of the soil test never decides anything. *)
Theorem zone_determines_soil (lat temp precip : value) (zone : string) :
  get_climate_zone lat temp precip = Ok zone ->
  exists soil_info,
    predict_soil_characteristics lat zone = Ok soil_info /\
    In (zone, soil_info) zone_soil_table /\
    (soil_info = lateritic_soil <-> zone = "tropical rainforest"%string) /\
    (soil_info = tundra_soil <-> zone = "polar"%string) /\
    (soil_info = brown_earth_soil <-> zone = "temperate"%string).
Proof.
  intro H. destruct (zone_soil_in_table _ _ _ _ H) as (soil_info & Hsoil & Hin).
  exists soil_info. split; [exact Hsoil|]. split; [exact Hin|].
  split; [now apply zone_soil_table_lateritic|].
  simpl in Hin.
  destruct Hin as [E|[E|[E|[E|[E|[E|[E|[]]]]]]]]; inversion E; subst;
    split; split; intro; solve [reflexivity | discriminate].
Qed.

Lemma zone_determines_soil_witness :
  get_climate_zone (VInt 20) (VInt 30) (VInt 70) = Ok "tropical rainforest"%string /\
  exists soil_info,
    predict_soil_characteristics (VInt 20) "tropical rainforest" = Ok soil_info /\
    In ("tropical rainforest"%string, soil_info) zone_soil_table /\
    (soil_info = lateritic_soil <-> "tropical rainforest"%string = "tropical rainforest"%string) /\
    (soil_info = tundra_soil <-> "tropical rainforest"%string = "polar"%string) /\
    (soil_info = brown_earth_soil <-> "tropical rainforest"%string = "temperate"%string).
Proof.
  split; [reflexivity|].
  apply (zone_determines_soil (VInt 20) (VInt 30) (VInt 70)). reflexivity.
Defined.

(** ** Where the classifier fails *)

Lemma get_climate_zone_not_number (lat temp precip : value) :
  as_number lat = None -> get_climate_zone lat temp precip = Raise TypeError.
Proof.
  intro H. unfold get_climate_zone, zone_prefix, abs. now rewrite H.
Qed.

Lemma get_climate_zone_number (lat temp precip : value) (a : Q) :
  as_number lat = Some a ->
  get_climate_zone lat temp precip =
  if Qle_bool (Qabs a) 23.5 then
    match as_number temp with
    | None => Raise TypeError
    | Some t =>
        if Qgt_bool t 25 then
          match as_number precip with
          | None => Raise TypeError
          | Some p =>
              if Qgt_bool p 60 then Ok "tropical rainforest"%string
              else Ok "tropical savanna"%string
          end
        else Ok "tropical"%string
    end
  else if Qle_bool (Qabs a) 35 then
    match as_number precip with
    | None => Raise TypeError
    | Some p =>
        if Qgt_bool p 20 then Ok "subtropical monsoon"%string
        else Ok "subtropical"%string
    end
  else if Qle_bool (Qabs a) 66 then Ok "temperate"%string
  else Ok "polar"%string.
Proof.
  intro Ha. unfold get_climate_zone, zone_prefix, abs, num_gt.
  rewrite Ha. cbn [bind].
  repeat split_band; cbn [bind String.eqb Ascii.eqb Bool.eqb]; try reflexivity.
  - destruct (as_number temp) as [t|]; cbn [bind]; [|reflexivity].
    destruct (Qgt_bool t 25); cbn [bind]; [|reflexivity].
    destruct (as_number precip) as [p|]; cbn [bind]; [|reflexivity].
    now destruct (Qgt_bool p 60).
  - destruct (as_number precip) as [p|]; cbn [bind]; [|reflexivity].
    now destruct (Qgt_bool p 20).
Qed.

(** [get_climate_zone] raises nothing but [TypeError], returns nothing
    but one of its seven labels, and returns exactly when the latitude
    is a number and the values its band looks at are numbers: the
    temperature in the tropical band, the precipitation there only when
    the temperature is above 25, the precipitation in the subtropical
    band, and nothing beyond 35 degrees. *)
Theorem get_climate_zone_domain (lat temp precip : value) :
  (forall e, get_climate_zone lat temp precip = Raise e -> e = TypeError) /\
  (forall zone, get_climate_zone lat temp precip = Ok zone -> In zone zone_labels) /\
  (is_ok (get_climate_zone lat temp precip) = true <->
   exists a,
     as_number lat = Some a /\
     (Qabs a <= 23.5 ->
        exists t, as_number temp = Some t /\ (25 < t -> is_number precip = true)) /\
     (23.5 < Qabs a /\ Qabs a <= 35 -> is_number precip = true)).
Proof.
  destruct (as_number lat) as [a|] eqn:Ha.
  2: { rewrite (get_climate_zone_not_number _ _ _ Ha).
       split; [intros e H; now inversion H|].
       split; [discriminate|].
       split; [discriminate | intros (a & H & _); discriminate]. }
  rewrite (get_climate_zone_number _ _ _ a Ha). unfold is_number.
  destruct (Qle_bool (Qabs a) 23.5) eqn:E1;
    [|destruct (Qle_bool (Qabs a) 35) eqn:E2;
      [|destruct (Qle_bool (Qabs a) 66) eqn:E3]];
    reflect_Q.
  - destruct (as_number temp) as [t|].
    + destruct (Qgt_bool t 25) eqn:Et; reflect_Q.
      * destruct (as_number precip) as [p|].
        -- split; [destruct (Qgt_bool p 60); discriminate|].
           split; [destruct (Qgt_bool p 60); intros z H; inversion H; simpl; tauto|].
           split; [intros _ | now destruct (Qgt_bool p 60)].
           exists a. split; [reflexivity|]. split; [|intros; reflexivity].
           intros _. exists t. now split.
        -- split; [intros e H; now inversion H|].
           split; [discriminate|].
           split; [discriminate|].
           intros (a' & Ha' & Htrop & _). inversion Ha'; subst a'.
           destruct (Htrop E1) as (t' & Ht' & Hp). inversion Ht'; subst t'.
           specialize (Hp Et). discriminate.
      * split; [discriminate|].
        split; [intros z H; inversion H; simpl; tauto|].
        split; [intros _ | reflexivity].
        exists a. split; [reflexivity|]. split; [|intros [? ?]; lra].
        intros _. exists t. split; [reflexivity | intro; lra].
    + split; [intros e H; now inversion H|].
      split; [discriminate|].
      split; [discriminate|].
      intros (a' & Ha' & Htrop & _). inversion Ha'; subst a'.
      destruct (Htrop E1) as (t' & Ht' & _). discriminate.
  - destruct (as_number precip) as [p|].
    + split; [destruct (Qgt_bool p 20); discriminate|].
      split; [destruct (Qgt_bool p 20); intros z H; inversion H; simpl; tauto|].
      split; [intros _ | now destruct (Qgt_bool p 20)].
      exists a. split; [reflexivity|]. split; [intro; lra | intros; reflexivity].
    + split; [intros e H; now inversion H|].
      split; [discriminate|].
      split; [discriminate|].
      intros (a' & Ha' & _ & Hsub). inversion Ha'; subst a'.
      assert (H : 23.5 < Qabs a /\ Qabs a <= 35) by now split.
      specialize (Hsub H). discriminate.
  - split; [discriminate|].
    split; [intros z H; inversion H; simpl; tauto|].
    split; [intros _ | reflexivity].
    exists a. split; [reflexivity|]. split; [intro; lra | intros [? ?]; lra].
  - split; [discriminate|].
    split; [intros z H; inversion H; simpl; tauto|].
    split; [intros _ | reflexivity].
    exists a. split; [reflexivity|]. split; [intro; lra | intros [? ?]; lra].
Qed.

Lemma Qabs_opp_eq (x : Q) : Qabs (- x) = Qabs x.
Proof.
  destruct x as [n d]. unfold Qabs, Qopp; simpl. now rewrite Z.abs_opp.
Qed.

(** Only the absolute latitude matters: a place and its mirror image
    across the equator get the same zone from the same daily values and
    the same soil from the same label. *)
Theorem hemisphere_symmetry (lat : Q) (temp precip : value) (zone : string) :
  get_climate_zone (VNum (- lat)) temp precip = get_climate_zone (VNum lat) temp precip /\
  predict_soil_characteristics (VNum (- lat)) zone =
  predict_soil_characteristics (VNum lat) zone.
Proof.
  split.
  - rewrite (get_climate_zone_number (VNum (- lat)) temp precip (- lat) eq_refl),
      (get_climate_zone_number (VNum lat) temp precip lat eq_refl).
    now rewrite Qabs_opp_eq.
  - rewrite (predict_soil_characteristics_number (VNum (- lat)) (- lat) zone eq_refl),
      (predict_soil_characteristics_number (VNum lat) lat zone eq_refl).
    now rewrite Qabs_opp_eq.
Qed.

(** ** The weather-code table on arbitrary values *)

Lemma find_code_Qeq (q q' : Q) (table : list (Z * string)) :
  q == q' -> find_code q table = find_code q' table.
Proof.
  intro H. induction table as [|[k label] rest IH]; simpl; [reflexivity|].
  now rewrite IH, H.
Qed.

Lemma find_code_label (q : Q) (table : list (Z * string)) (label : string) :
  find_code q table = Some label ->
  exists k, In (k, label) table /\ q == inject_Z k.
Proof.
  induction table as [|[k l] rest IH]; simpl; [discriminate|].
  destruct (Qeq_bool (inject_Z k) q) eqn:E.
  - intro H. inversion H; subst l. exists k. split; [now left|].
    apply Qeq_bool_iff in E. now symmetry.
  - intro H. destruct (IH H) as (k' & Hin & Hq). exists k'. split; [now right | assumption].
Qed.

(** [interpret_weather_code] on any value: it raises, and then
    [TypeError], exactly on a list or a dict; a number gets the label of
    the key it is equal to, however it is written (the float 61.0 as the
    int 61), and ["Unknown"] when it equals no key; [None] and strings
    get ["Unknown"]; and no label comes from anywhere but the table. *)
Theorem interpret_weather_code_any (code : value) :
  is_ok (interpret_weather_code code) = hashable code /\
  (forall e, interpret_weather_code code = Raise e -> e = TypeError) /\
  (forall label,
     interpret_weather_code code = Ok label ->
     label = "Unknown"%string \/ In label (map snd weather_codes)) /\
  (forall q k label,
     as_number code = Some q -> q == inject_Z k -> In (k, label) weather_codes ->
     interpret_weather_code code = Ok label) /\
  (forall q,
     as_number code = Some q ->
     (forall k, In k (map fst weather_codes) -> ~ q == inject_Z k) ->
     interpret_weather_code code = Ok "Unknown"%string) /\
  (hashable code = true -> as_number code = None ->
     interpret_weather_code code = Ok "Unknown"%string).
Proof.
  assert (Hnum : forall q, as_number code = Some q ->
            interpret_weather_code code =
            Ok (match find_code q weather_codes with
                | Some label => label
                | None => "Unknown"%string
                end)).
  { intros q Hq. destruct code as [|[|]|q'| | |]; try discriminate;
      inversion Hq; subst; reflexivity. }
  repeat match goal with |- _ /\ _ => split end.
  - destruct code as [|[|]|q| | |]; reflexivity.
  - destruct code as [|[|]|q| | |]; intros e H; try discriminate; now inversion H.
  - intros label H.
    destruct (as_number code) as [q|] eqn:Hq.
    + rewrite (Hnum q eq_refl) in H.
      destruct (find_code q weather_codes) as [l|] eqn:Hf;
        inversion H; subst label; [|now left].
      right. destruct (find_code_label _ _ _ Hf) as (k & Hin & _).
      change l with (snd (k, l)). now apply in_map.
    + destruct code as [|[|]|q| | |]; try discriminate; inversion H; now left.
  - intros q k label Hq Heq Hin. rewrite (Hnum q Hq).
    rewrite (find_code_Qeq q (inject_Z k) _ Heq).
    now rewrite (find_code_key k weather_codes label weather_codes_NoDup Hin).
  - intros q Hq Hno. rewrite (Hnum q Hq).
    destruct (find_code q weather_codes) as [l|] eqn:Hf; [|reflexivity].
    destruct (find_code_label _ _ _ Hf) as (k & Hin & Hk).
    exfalso. apply (Hno k); [|assumption].
    change k with (fst (k, l)). now apply in_map.
  - intros Hh Hn. destruct code as [|[|]|q| | |]; try discriminate; reflexivity.
Qed.

(** ** Where the composer fails *)

Lemma interpret_weather_code_hashable (code : value) :
  hashable code = true -> exists label, interpret_weather_code code = Ok label.
Proof.
  destruct code as [|[|]|q| | |]; try discriminate; intros _; eexists; reflexivity.
Qed.

Lemma interpret_weather_code_unhashable (code : value) :
  hashable code = false -> interpret_weather_code code = Raise TypeError.
Proof.
  destruct code as [|[|]|q| | |]; try discriminate; reflexivity.
Qed.

(** [generate_advice] on a weather dict whose current block is a dict. *)
Lemma advice_sentences_current (d c : list (string * value)) (soil : SoilProfile) :
  field_or d "current" (VDict []) = VDict c ->
  advice_sentences (VDict d) soil =
  if hashable (reading c "weather_code") then
    match as_number (reading c "temperature_2m"),
          as_number (reading c "precipitation"),
          as_number (reading c "wind_speed_10m") with
    | Some t, Some p, Some w =>
        Ok (rules_1_to_7 soil t p w (code_in (reading c "weather_code") rain_codes))
    | _, _, _ => Raise TypeError
    end
  else Raise TypeError.
Proof.
  intro Hc. unfold advice_sentences.
  rewrite !get_field_or. cbn [bind]. rewrite Hc.
  rewrite !get_field_or. cbn [bind].
  fold (reading c "temperature_2m") (reading c "precipitation")
    (reading c "wind_speed_10m") (reading c "weather_code").
  destruct (hashable (reading c "weather_code")) eqn:Hh.
  - destruct (interpret_weather_code_hashable _ Hh) as [label ->]. cbn [bind].
    unfold num_gt, num_lt.
    destruct (as_number (reading c "temperature_2m")) as [t|]; cbn [bind];
      [|reflexivity].
    destruct (as_number (reading c "precipitation")) as [p|];
      [|destruct (Qgt_bool t 30); cbn [bind]; try reflexivity;
        destruct (as_number (reading c "wind_speed_10m")); reflexivity].
    destruct (as_number (reading c "wind_speed_10m")) as [w|];
      [|destruct (Qgt_bool t 30); cbn [bind]; reflexivity].
    unfold rules_1_to_7, when, append.
    destruct (erosion_risk soil), (Qgt_bool t 30), (Qlt_bool t 10),
      (Qgt_bool p 0), (code_in (reading c "weather_code") rain_codes),
      (Qgt_bool w 30); reflexivity.
  - rewrite (interpret_weather_code_unhashable _ Hh). reflexivity.
Qed.

(** [generate_advice] raises nothing but [AttributeError] and
    [TypeError]: the first when the weather argument is not a dict or
    its ["current"] entry is not one ([null], say), the second when the
    current block is a dict and one of the temperature, precipitation
    and wind readings is not a number or the weather code is a list or
    a dict.  It returns in every other case, a missing reading counting
    as the number 0. *)
Theorem generate_advice_domain (weather : value) (soil : SoilProfile) :
  (forall e, generate_advice weather soil = Raise e ->
     e = AttributeError \/ e = TypeError) /\
  ((forall d, weather <> VDict d) ->
     generate_advice weather soil = Raise AttributeError) /\
  (forall d,
     weather = VDict d ->
     (forall c, field_or d "current" (VDict []) <> VDict c) ->
     generate_advice weather soil = Raise AttributeError) /\
  (forall d c,
     weather = VDict d ->
     field_or d "current" (VDict []) = VDict c ->
     is_number (reading c "temperature_2m")
     && is_number (reading c "precipitation")
     && is_number (reading c "wind_speed_10m")
     && hashable (reading c "weather_code") = false ->
     generate_advice weather soil = Raise TypeError) /\
  (is_ok (generate_advice weather soil) = true <->
   exists d c,
     weather = VDict d /\
     field_or d "current" (VDict []) = VDict c /\
     is_number (reading c "temperature_2m") = true /\
     is_number (reading c "precipitation") = true /\
     is_number (reading c "wind_speed_10m") = true /\
     hashable (reading c "weather_code") = true).
Proof.
  assert (Hnodict : (forall d, weather <> VDict d) ->
            generate_advice weather soil = Raise AttributeError).
  { intro H. destruct weather; try reflexivity. now destruct (H d). }
  assert (Hnoblock : forall d, weather = VDict d ->
            (forall c, field_or d "current" (VDict []) <> VDict c) ->
            generate_advice weather soil = Raise AttributeError).
  { intros d -> H. unfold generate_advice, advice_sentences.
    rewrite get_field_or. cbn [bind].
    destruct (field_or d "current" (VDict [])) as [| | | | |c]; try reflexivity.
    now destruct (H c). }
  assert (Hblock : forall d c, weather = VDict d ->
            field_or d "current" (VDict []) = VDict c ->
            generate_advice weather soil =
            if is_number (reading c "temperature_2m")
               && is_number (reading c "precipitation")
               && is_number (reading c "wind_speed_10m")
               && hashable (reading c "weather_code")
            then Ok (join nl (match as_number (reading c "temperature_2m"),
                                    as_number (reading c "precipitation"),
                                    as_number (reading c "wind_speed_10m") with
                              | Some t, Some p, Some w =>
                                  rules_1_to_7 soil t p w
                                    (code_in (reading c "weather_code") rain_codes)
                              | _, _, _ => []
                              end))
            else Raise TypeError).
  { intros d c -> Hc. unfold generate_advice, is_number.
    rewrite (advice_sentences_current d c soil Hc).
    destruct (hashable (reading c "weather_code")),
      (as_number (reading c "temperature_2m")),
      (as_number (reading c "precipitation")),
      (as_number (reading c "wind_speed_10m")); reflexivity. }
  assert (Hcases : (forall d, weather <> VDict d) \/
            (exists d, weather = VDict d /\
               ((forall c, field_or d "current" (VDict []) <> VDict c) \/
                exists c, field_or d "current" (VDict []) = VDict c))).
  { destruct weather as [| | | | |d]; try (left; discriminate).
    right. exists d. split; [reflexivity|].
    destruct (field_or d "current" (VDict [])) as [| | | | |c];
      try (left; discriminate).
    right. now exists c. }
  split; [|split; [exact Hnodict | split; [exact Hnoblock | split]]].
  - intros e He.
    destruct Hcases as [H | (d & Hd & [H | (c & Hc)])].
    + rewrite (Hnodict H) in He. inversion He. now left.
    + rewrite (Hnoblock d Hd H) in He. inversion He. now left.
    + rewrite (Hblock d c Hd Hc) in He.
      destruct (_ && _); inversion He. now right.
  - intros d c Hd Hc Hbad. rewrite (Hblock d c Hd Hc). now rewrite Hbad.
  - split.
    + intro Hok.
      destruct Hcases as [H | (d & Hd & [H | (c & Hc)])].
      * rewrite (Hnodict H) in Hok. discriminate.
      * rewrite (Hnoblock d Hd H) in Hok. discriminate.
      * exists d, c. rewrite (Hblock d c Hd Hc) in Hok.
        destruct (is_number (reading c "temperature_2m")),
          (is_number (reading c "precipitation")),
          (is_number (reading c "wind_speed_10m")),
          (hashable (reading c "weather_code")); try discriminate.
        repeat split; assumption.
    + intros (d & c & Hd & Hc & H1 & H2 & H3 & H4).
      rewrite (Hblock d c Hd Hc), H1, H2, H3, H4. reflexivity.
Qed.


(** ** The shape of the advice *)

Lemma select_In {A : Type} (flags : list bool) (l : list A) (x : A) :
  In x (select flags l) -> In x l.
Proof.
  revert l. induction flags as [|b flags IH]; intros [|y l]; simpl; try tauto.
  destruct b; simpl; intuition.
Qed.

Lemma select_NoDup {A : Type} (flags : list bool) (l : list A) :
  NoDup l -> NoDup (select flags l).
Proof.
  revert l. induction flags as [|b flags IH]; intros [|y l] H; simpl;
    try constructor.
  inversion H as [|? ? Hy Hl]; subst.
  destruct b; [|now apply IH].
  constructor; [|now apply IH].
  intro Hin. apply Hy. now apply select_In in Hin.
Qed.

Lemma all_sentences_NoDup (soil : SoilProfile) : NoDup (all_sentences soil).
Proof.
  unfold all_sentences.
  repeat (constructor;
          [simpl; intros H;
           repeat (destruct H as [H|H]; [revert H; distinct_sentences|]);
           exact H|]).
  constructor.
Qed.

Lemma rules_1_to_7_select (soil : SoilProfile) (t p w : Q) (rc : bool) :
  rules_1_to_7 soil t p w rc =
  select [true; erosion_risk soil; Qgt_bool t 30;
          negb (Qgt_bool t 30) && Qlt_bool t 10; Qgt_bool p 0 || rc;
          Qgt_bool w 30; true; true]
         (all_sentences soil).
Proof.
  unfold rules_1_to_7, when, all_sentences.
  destruct (erosion_risk soil), (Qgt_bool t 30), (Qlt_bool t 10),
    (Qgt_bool p 0 || rc), (Qgt_bool w 30); reflexivity.
Qed.

(** Every advice [generate_advice] composes opens with the soil-type
    sentence and closes with the best-crop and fertility sentences; in
    between come at most four of the erosion, heat, cold, rainfall and
    wind sentences, so there are three to seven sentences, none of them
    twice; and the erosion warning is among them exactly when the soil
    profile passes the erosion test. *)
Theorem advice_shape (weather : value) (soil : SoilProfile) (l : list string) :
  advice_sentences weather soil = Ok l ->
  (exists middle,
     l = (soil_type_sentence soil :: middle
          ++ [best_crop_sentence soil; fertility_sentence soil])%list /\
     incl middle [erosion_sentence; heat_sentence; cool_sentence;
                  rainfall_sentence; wind_sentence] /\
     (List.length middle <= 4)%nat) /\
  (3 <= List.length l <= 7)%nat /\
  NoDup l /\
  (In erosion_sentence l <-> erosion_risk soil = true).
Proof.
  intro H. apply advice_sentences_inv in H.
  destruct H as (_ & _ & _ & _ & code & t & p & w & _ & _ & _ & _ & _ & _ & _ & _ & ->).
  split; [|split; [|split]].
  - exists (when (erosion_risk soil) erosion_sentence
            ++ when (Qgt_bool t 30) heat_sentence
            ++ when (negb (Qgt_bool t 30) && Qlt_bool t 10) cool_sentence
            ++ when (Qgt_bool p 0 || code_in code rain_codes) rainfall_sentence
            ++ when (Qgt_bool w 30) wind_sentence)%list.
    unfold rules_1_to_7, when.
    destruct (erosion_risk soil), (Qgt_bool t 30), (Qlt_bool t 10),
      (Qgt_bool p 0 || code_in code rain_codes), (Qgt_bool w 30);
      cbn [negb andb app];
      (split; [reflexivity|]);
      (split; [intros x Hx; simpl in Hx |-*; tauto | simpl; lia]).
  - unfold rules_1_to_7, when.
    destruct (erosion_risk soil), (Qgt_bool t 30), (Qlt_bool t 10),
      (Qgt_bool p 0 || code_in code rain_codes), (Qgt_bool w 30);
      simpl; lia.
  - rewrite rules_1_to_7_select. apply select_NoDup, all_sentences_NoDup.
  - rewrite in_rules_1_to_7. split.
    + intros [H|[[H _]|[[_ H]|[[_ H]|[[_ H]|[[_ H]|[H|H]]]]]]];
        solve [assumption | exfalso; revert H; distinct_sentences].
    + intro H. right; left. now split.
Qed.

Lemma advice_shape_witness :
  advice_sentences (weather_of hot_dry_snapshot) lateritic_soil =
    Ok [soil_type_sentence lateritic_soil; erosion_sentence; heat_sentence;
        best_crop_sentence lateritic_soil; fertility_sentence lateritic_soil] /\
  NoDup [soil_type_sentence lateritic_soil; erosion_sentence; heat_sentence;
         best_crop_sentence lateritic_soil; fertility_sentence lateritic_soil].
Proof.
  split; [reflexivity|].
  exact (proj1 (proj2 (proj2
    (advice_shape (weather_of hot_dry_snapshot) lateritic_soil _ eq_refl)))).
Defined.

(** ** What the advisory text says *)

(** On the five profiles of the soil table each conditional sentence
    occurs in the joined text exactly when its rule fired. *)
Lemma table_text_mentions (soil : SoilProfile) (t p w : Q) (rc : bool) :
  In soil [lateritic_soil; red_yellow_soil; subtropical_soil;
           brown_earth_soil; tundra_soil] ->
  str_contains heat_sentence (join nl (rules_1_to_7 soil t p w rc)) = Qgt_bool t 30 /\
  str_contains cool_sentence (join nl (rules_1_to_7 soil t p w rc)) =
    negb (Qgt_bool t 30) && Qlt_bool t 10 /\
  str_contains rainfall_sentence (join nl (rules_1_to_7 soil t p w rc)) =
    Qgt_bool p 0 || rc /\
  str_contains wind_sentence (join nl (rules_1_to_7 soil t p w rc)) = Qgt_bool w 30 /\
  str_contains erosion_sentence (join nl (rules_1_to_7 soil t p w rc)) =
    erosion_risk soil /\
  String.prefix (soil_type_sentence soil) (join nl (rules_1_to_7 soil t p w rc)) = true.
Proof.
  intro Hin. unfold rules_1_to_7.
  destruct (Qgt_bool t 30), (Qlt_bool t 10), (Qgt_bool p 0 || rc), (Qgt_bool w 30);
    simpl in Hin;
    destruct Hin as [<-|[<-|[<-|[<-|[<-|[]]]]]]; vm_compute; repeat split.
Qed.

(** In the pipeline, where the soil profile comes from the soil table,
    the text [generate_advice] returns for a current block with numeric
    readings opens with the soil-type sentence and contains the heat
    sentence iff the temperature is above 30, the cold one iff it is below
    10, the rainfall one iff the precipitation is positive or the code is
    a rain code, the wind one iff the wind is above 30, and the erosion
    warning iff the soil is the Lateritic profile. *)
Theorem advice_text_mentions
    (lat : value) (zone : string) (soil_info : SoilProfile)
    (d c : list (string * value)) (t p w : Q) :
  predict_soil_characteristics lat zone = Ok soil_info ->
  field_or d "current" (VDict []) = VDict c ->
  as_number (reading c "temperature_2m") = Some t ->
  as_number (reading c "precipitation") = Some p ->
  as_number (reading c "wind_speed_10m") = Some w ->
  hashable (reading c "weather_code") = true ->
  exists text,
    generate_advice (VDict d) soil_info = Ok text /\
    String.prefix (soil_type_sentence soil_info) text = true /\
    (str_contains heat_sentence text = true <-> 30 < t) /\
    (str_contains cool_sentence text = true <-> t < 10) /\
    (str_contains rainfall_sentence text = true <->
       0 < p \/ code_in (reading c "weather_code") rain_codes = true) /\
    (str_contains wind_sentence text = true <-> 30 < w) /\
    (str_contains erosion_sentence text = true <-> soil_info = lateritic_soil).
Proof.
  intros Hsoil Hc Ht Hp Hw Hh.
  apply predict_soil_characteristics_range in Hsoil.
  eexists. split.
  { unfold generate_advice.
    rewrite (advice_sentences_current d c soil_info Hc), Hh, Ht, Hp, Hw.
    reflexivity. }
  destruct (table_text_mentions soil_info t p w
              (code_in (reading c "weather_code") rain_codes) Hsoil)
    as (-> & -> & -> & -> & -> & ->).
  split; [reflexivity|].
  rewrite Qgt_bool_true, orb_true_iff, Qgt_bool_true, Qgt_bool_true.
  repeat match goal with |- _ /\ _ => split end; try tauto.
  - rewrite andb_true_iff, negb_true_iff, Qgt_bool_false, Qlt_bool_true.
    split; [tauto | intro; split; [lra | assumption]].
  - simpl in Hsoil.
    destruct Hsoil as [<-|[<-|[<-|[<-|[<-|[]]]]]];
      (split; [try discriminate; reflexivity | try discriminate; reflexivity]).
Qed.

Lemma advice_text_mentions_witness :
  exists text,
    generate_advice (VDict no_code_body) red_yellow_soil = Ok text /\
    String.prefix (soil_type_sentence red_yellow_soil) text = true /\
    (str_contains heat_sentence text = true <-> 30 < inject_Z 28) /\
    (str_contains erosion_sentence text = true <-> red_yellow_soil = lateritic_soil).
Proof.
  destruct (advice_text_mentions (VNum 18.52) "tropical savanna" red_yellow_soil
              no_code_body no_code_current (inject_Z 28) (inject_Z 0) (inject_Z 12)
              eq_refl eq_refl eq_refl eq_refl eq_refl eq_refl)
    as (text & H1 & H2 & H3 & _ & _ & _ & H4).
  exists text. repeat split; try assumption; try apply H3; try apply H4.
Defined.


(** ** The pipeline's outcomes *)

Lemma bind_Ok {A B : Type} (c : result A) (k : A -> result B) (b : B) :
  bind c k = Ok b -> exists a, c = Ok a /\ k a = Ok b.
Proof.
  destruct c as [a|e]; simpl; [|discriminate]. intro H. now exists a.
Qed.

Lemma bind_Raise {A B : Type} (c : result A) (k : A -> result B) (e : exn) :
  bind c k = Raise e -> c = Raise e \/ exists a, c = Ok a /\ k a = Raise e.
Proof.
  destruct c as [a|e']; simpl; intro H; [right; now exists a | left; now inversion H].
Qed.

Lemma get_builtin (obj : value) (k : string) (default : value) (e : exn) :
  get obj k default = Raise e -> builtin_error e.
Proof. destruct obj; simpl; intro H; inversion H; exact I. Qed.

Lemma index0_builtin (obj : value) (e : exn) :
  index0 obj = Raise e -> builtin_error e.
Proof.
  destruct obj as [| | |[|]|[|]|]; simpl; intro H; inversion H; exact I.
Qed.

Lemma daily_first_builtin (daily : value) (key : string) (e : exn) :
  daily_first daily key = Raise e -> builtin_error e.
Proof.
  unfold daily_first. destruct (truthy daily); [|discriminate].
  intro H. apply bind_Raise in H. destruct H as [H | (series & _ & H)].
  - now apply get_builtin in H.
  - now apply index0_builtin in H.
Qed.

Lemma get_climate_zone_builtin (lat temp precip : value) (e : exn) :
  get_climate_zone lat temp precip = Raise e -> builtin_error e.
Proof.
  destruct (as_number lat) as [a|] eqn:Ha.
  - rewrite (get_climate_zone_number _ _ _ a Ha).
    repeat split_band;
      repeat match goal with
      | |- context [match as_number ?v with _ => _ end] => destruct (as_number v)
      | |- context [if Qgt_bool ?x ?y then _ else _] => destruct (Qgt_bool x y)
      end; intro H; inversion H; exact I.
  - rewrite (get_climate_zone_not_number _ _ _ Ha). intro H; inversion H; exact I.
Qed.

Lemma predict_soil_characteristics_builtin (lat : value) (zone : string) (e : exn) :
  predict_soil_characteristics lat zone = Raise e -> builtin_error e.
Proof.
  destruct (as_number lat) as [a|] eqn:Ha.
  - rewrite (predict_soil_characteristics_number _ a _ Ha). discriminate.
  - unfold predict_soil_characteristics, abs. rewrite Ha.
    intro H; inversion H; exact I.
Qed.

Lemma interpret_weather_code_builtin (code : value) (e : exn) :
  interpret_weather_code code = Raise e -> builtin_error e.
Proof.
  destruct code as [|[|]|q| | |]; simpl; intro H; inversion H; exact I.
Qed.

Lemma num_gt_builtin (v : value) (c : Q) (e : exn) :
  num_gt v c = Raise e -> builtin_error e.
Proof. unfold num_gt. destruct (as_number v); intro H; inversion H; exact I. Qed.

Lemma num_lt_builtin (v : value) (c : Q) (e : exn) :
  num_lt v c = Raise e -> builtin_error e.
Proof. unfold num_lt. destruct (as_number v); intro H; inversion H; exact I. Qed.

(** Peels the first step off a failed sequence of steps. *)
Ltac peel H :=
  apply bind_Raise in H;
  destruct H as [H | (? & _ & H)];
  [first [ now apply get_builtin in H
         | now apply daily_first_builtin in H
         | now apply get_climate_zone_builtin in H
         | now apply predict_soil_characteristics_builtin in H
         | now apply interpret_weather_code_builtin in H
         | now apply num_gt_builtin in H
         | now apply num_lt_builtin in H ]
  | ].

Lemma generate_advice_builtin (weather : value) (soil : SoilProfile) (e : exn) :
  generate_advice weather soil = Raise e -> builtin_error e.
Proof.
  unfold generate_advice. intro H.
  apply bind_Raise in H. destruct H as [H | (? & _ & H)]; [|discriminate].
  unfold advice_sentences in H.
  do 7 peel H.
  apply bind_Raise in H. destruct H as [H | (? & _ & H)].
  - match type of H with (if ?b then _ else _) = _ => destruct b end;
      [discriminate|].
    peel H. discriminate.
  - do 2 peel H. discriminate.
Qed.

Lemma build_report_builtin (lat lon : value) (name : string) (raw : value) (e : exn) :
  build_report lat lon name raw = Raise e -> builtin_error e.
Proof.
  unfold build_report. intro H.
  do 12 peel H.
  apply bind_Raise in H. destruct H as [H | (? & _ & H)]; [|discriminate].
  now apply generate_advice_builtin in H.
Qed.

(** What a returned report was made from. *)
Lemma build_report_inv (lat lon : value) (name : string) (raw : value)
    (out : recommendation) :
  build_report lat lon name raw = Ok out ->
  exists d c temp_max precip_sum zone soil_info label text,
    raw = VDict d /\
    field_or d "current" (VDict []) = VDict c /\
    daily_first (field_or d "daily" (VDict [])) "temperature_2m_max" = Ok temp_max /\
    daily_first (field_or d "daily" (VDict [])) "precipitation_sum" = Ok precip_sum /\
    get_climate_zone lat temp_max precip_sum = Ok zone /\
    predict_soil_characteristics lat zone = Ok soil_info /\
    interpret_weather_code (reading c "weather_code") = Ok label /\
    generate_advice raw soil_info = Ok text /\
    out = Report {|
      location_name := name;
      latitude := lat;
      longitude := lon;
      temperature := field_or c "temperature_2m" (VStr "N/A");
      humidity := field_or c "relative_humidity_2m" (VStr "N/A");
      precipitation := field_or c "precipitation" (VInt 0);
      wind_speed := field_or c "wind_speed_10m" (VStr "N/A");
      condition := label;
      climate_zone := zone;
      soil := soil_info;
      advice := text
    |}.
Proof.
  unfold build_report.
  destruct raw as [| | | | |d]; try discriminate.
  rewrite !get_field_or. cbn [bind].
  destruct (daily_first (field_or d "daily" (VDict [])) "temperature_2m_max")
    as [temp_max|] eqn:H1; cbn [bind]; [|discriminate].
  destruct (daily_first (field_or d "daily" (VDict [])) "precipitation_sum")
    as [precip_sum|] eqn:H2; cbn [bind]; [|discriminate].
  destruct (get_climate_zone lat temp_max precip_sum) as [zone|] eqn:H3;
    cbn [bind]; [|discriminate].
  destruct (predict_soil_characteristics lat zone) as [soil_info|] eqn:H4;
    cbn [bind]; [|discriminate].
  destruct (field_or d "current" (VDict [])) as [| | | | |c] eqn:H5;
    try discriminate.
  rewrite !get_field_or. cbn [bind].
  fold (reading c "weather_code").
  destruct (interpret_weather_code (reading c "weather_code")) as [label|] eqn:H6;
    cbn [bind]; [|discriminate].
  destruct (generate_advice (VDict d) soil_info) as [text|] eqn:H7;
    cbn [bind]; [|discriminate].
  intro H. inversion H.
  exists d, c, temp_max, precip_sum, zone, soil_info, label, text.
  repeat (split; [reflexivity || assumption|]). reflexivity.
Qed.

Section Outcomes.

Variable geocoding_api : string -> http_outcome.
Variable weather_api : value -> value -> http_outcome.
Variable str_of : value -> string.

Lemma get_coordinates_log (location : string) :
  (fst (get_coordinates geocoding_api str_of location) = []) \/
  (exists e,
     get_coordinates geocoding_api str_of location = ([GeocodingError e], None)).
Proof.
  unfold get_coordinates.
  destruct (geocoding_api location) as [cause|data].
  - right. now eexists.
  - destruct (parse_coordinates str_of data) as [coords|e].
    + now left.
    + right. now eexists.
Qed.

(** The ways [get_agricultural_recommendation] can end. *)
Lemma recommendation_cases (location : string) :
  (exists log,
     get_coordinates geocoding_api str_of location = (log, None) /\
     (List.length log <= 1)%nat /\
     get_agricultural_recommendation geocoding_api weather_api str_of location =
     (log, Ok (ErrorResult ("Could not find location: " ++ location)))) \/
  (exists lat lon name,
     get_coordinates geocoding_api str_of location = ([], Some (lat, lon, name)) /\
     ((exists cause,
         weather_api lat lon = HttpFailure cause /\
         get_agricultural_recommendation geocoding_api weather_api str_of location =
         ([WeatherAPIError (RequestException cause)],
          Ok (ErrorResult "Could not fetch weather data"))) \/
      (exists body,
         weather_api lat lon = HttpJson body /\ truthy body = false /\
         get_agricultural_recommendation geocoding_api weather_api str_of location =
         ([], Ok (ErrorResult "Could not fetch weather data"))) \/
      (exists body,
         weather_api lat lon = HttpJson body /\ truthy body = true /\
         get_agricultural_recommendation geocoding_api weather_api str_of location =
         ([], build_report lat lon name body)))).
Proof.
  unfold get_agricultural_recommendation, fetch_combined_data.
  destruct (get_coordinates_log location) as [Hlog | (e & He)].
  - destruct (get_coordinates geocoding_api str_of location) as [log coords].
    simpl in Hlog. subst log.
    destruct coords as [[[lat lon] name]|].
    + right. exists lat, lon, name. split; [reflexivity|].
      destruct (weather_api lat lon) as [cause|body].
      * left. exists cause. now split.
      * right. destruct (truthy body) eqn:Hb.
        -- right. exists body. now repeat split.
        -- left. exists body. now repeat split.
    + left. exists []. repeat split. simpl; lia.
  - left. rewrite He. eexists. repeat split. simpl; lia.
Qed.

(** However the two services answer, [get_agricultural_recommendation]
    never lets an exception of the HTTP library escape: what it can raise
    comes from its own handling of the decoded answers.  It prints at
    most one line, and when it has printed one it returns an error
    result; and an error result carries one of two messages, the one
    about the location or the one about the weather data. *)
Theorem recommendation_outcomes (location : string) :
  (forall e,
     snd (get_agricultural_recommendation geocoding_api weather_api str_of location)
     = Raise e -> builtin_error e) /\
  (List.length
     (fst (get_agricultural_recommendation geocoding_api weather_api str_of location))
   <= 1)%nat /\
  (fst (get_agricultural_recommendation geocoding_api weather_api str_of location)
   <> [] ->
   exists msg,
     snd (get_agricultural_recommendation geocoding_api weather_api str_of location)
     = Ok (ErrorResult msg)) /\
  (forall msg,
     snd (get_agricultural_recommendation geocoding_api weather_api str_of location)
     = Ok (ErrorResult msg) ->
     msg = ("Could not find location: " ++ location)%string \/
     msg = "Could not fetch weather data"%string).
Proof.
  destruct (recommendation_cases location)
    as [(log & _ & Hlen & ->)
       | (lat & lon & name & _ &
          [(cause & _ & ->) | [(body & _ & _ & ->) | (body & _ & _ & ->)]])];
    cbn [fst snd].
  - repeat split; try discriminate; try assumption.
    + intros _. now eexists.
    + intros msg H. inversion H. now left.
  - repeat split; try discriminate; try (simpl; lia).
    + intros _. now eexists.
    + intros msg H. inversion H. now right.
  - repeat split; try discriminate; try (simpl; lia).
    + intro H. now destruct H.
    + intros msg H. inversion H. now right.
  - repeat split; try (simpl; lia).
    + intros e H. now apply build_report_builtin in H.
    + intro H. now destruct H.
    + intros msg H. apply build_report_inv in H.
      destruct H as (? & ? & ? & ? & ? & ? & ? & ? & _ & _ & _ & _ & _ & _ & _ & _ & H).
      discriminate.
Qed.

End Outcomes.

(** ** Geocoding *)

Lemma append_assoc (s1 s2 s3 : string) :
  ((s1 ++ s2) ++ s3 = s1 ++ s2 ++ s3)%string.
Proof.
  induction s1 as [|c s1 IH]; simpl; [reflexivity | now rewrite IH].
Qed.

Lemma append_empty (s : string) : (s ++ EmptyString)%string = s.
Proof.
  induction s as [|c s IH]; simpl; [reflexivity | now rewrite IH].
Qed.

Section Geocoding.

Variable str_of : value -> string.

(** The only answer [get_coordinates] makes a place of: a dict whose
    ["results"] is a list that starts with a dict holding the three
    mandatory keys. *)
Lemma parse_coordinates_inv (data lat lon : value) (full_name : string) :
  parse_coordinates str_of data = Ok (Some (lat, lon, full_name)) ->
  exists d r rest name,
    data = VDict d /\
    lookup "results" d = Some (VList (VDict r :: rest)) /\
    lookup "latitude" r = Some lat /\
    lookup "longitude" r = Some lon /\
    lookup "name" r = Some name.
Proof.
  unfold parse_coordinates.
  destruct data as [| | |s|l|d]; try discriminate.
  - cbn [contains bind getitem].
    destruct (str_contains "results" s); cbn [bind]; discriminate.
  - cbn [contains bind getitem].
    destruct (existsb _ l); cbn [bind]; discriminate.
  - cbn [contains bind getitem].
    destruct (lookup "results" d) as [results|] eqn:Hres; cbn [bind];
      [|discriminate].
    destruct results as [| | |s|l|dd]; try discriminate.
    + cbn [len bind].
      destruct (0 <? code_points s)%nat; [|discriminate].
      destruct s; discriminate.
    + cbn [len bind].
      destruct l as [|result rest]; [discriminate|].
      cbn [List.length Nat.ltb Nat.leb index0 bind].
      destruct result as [| | | | |r]; try discriminate.
      cbn [getitem].
      destruct (lookup "latitude" r) as [lat'|] eqn:Hlat; cbn [bind]; [|discriminate].
      destruct (lookup "longitude" r) as [lon'|] eqn:Hlon; cbn [bind]; [|discriminate].
      destruct (lookup "name" r) as [name|] eqn:Hname; cbn [bind]; [|discriminate].
      rewrite !get_field_or. cbn [bind].
      intro H. inversion H; subst.
      exists d, r, rest, name. repeat split; assumption.
    + cbn [len bind].
      destruct (0 <? List.length dd)%nat; discriminate.
Qed.

Lemma parse_coordinates_found (d r : list (string * value)) (rest : list value)
    (lat lon : value) (name admin1 country : string) :
  lookup "results" d = Some (VList (VDict r :: rest)) ->
  lookup "latitude" r = Some lat ->
  lookup "longitude" r = Some lon ->
  lookup "name" r = Some (VStr name) ->
  field_or r "admin1" (VStr EmptyString) = VStr admin1 ->
  field_or r "country" (VStr EmptyString) = VStr country ->
  parse_coordinates str_of (VDict d) =
  Ok (Some (lat, lon, display_name name admin1 country)).
Proof.
  intros Hres Hlat Hlon Hname Hadmin Hcountry.
  unfold parse_coordinates.
  cbn [contains bind getitem]. rewrite Hres.
  cbn [bind len List.length Nat.ltb Nat.leb index0 getitem].
  rewrite Hlat, Hlon, Hname. cbn [bind].
  rewrite !get_field_or, Hadmin, Hcountry. cbn [bind format truthy].
  unfold display_name.
  destruct (String.eqb admin1 EmptyString) eqn:Ea,
    (String.eqb country EmptyString) eqn:Ec; cbn [negb];
    rewrite ?append_assoc, ?append_empty; reflexivity.
Qed.

End Geocoding.

Section Places.

Variable geocoding_api : string -> http_outcome.
Variable str_of : value -> string.

(** On an answer whose first result has the three mandatory keys, a
    string for a name and strings, if anything, for region and country,
    [get_coordinates] prints nothing and returns the coordinates as sent
    together with the display name: the name, then the region and the
    country, each after ", " and left out when missing or empty.  The
    other results are not looked at. *)
Theorem get_coordinates_found (location : string)
    (d r : list (string * value)) (rest : list value)
    (lat lon : value) (name admin1 country : string) :
  geocoding_api location = HttpJson (VDict d) ->
  lookup "results" d = Some (VList (VDict r :: rest)) ->
  lookup "latitude" r = Some lat ->
  lookup "longitude" r = Some lon ->
  lookup "name" r = Some (VStr name) ->
  field_or r "admin1" (VStr EmptyString) = VStr admin1 ->
  field_or r "country" (VStr EmptyString) = VStr country ->
  get_coordinates geocoding_api str_of location =
  ([], Some (lat, lon, display_name name admin1 country)).
Proof.
  intros Hapi Hres Hlat Hlon Hname Hadmin Hcountry.
  unfold get_coordinates. rewrite Hapi.
  now rewrite (parse_coordinates_found str_of d r rest lat lon name admin1 country).
Qed.

(** Conversely, [get_coordinates] returns a place only when it printed
    nothing and the answer was a dict whose ["results"] is a list that
    starts with a dict holding ["latitude"], ["longitude"] and ["name"],
    the first two being returned as they are; an answer of any other
    shape, a result that misses one of the three keys among them, gives
    [None]. *)
Theorem get_coordinates_some (location : string) (log : list event)
    (lat lon : value) (full_name : string) :
  get_coordinates geocoding_api str_of location = (log, Some (lat, lon, full_name)) ->
  log = [] /\
  exists d r rest name,
    geocoding_api location = HttpJson (VDict d) /\
    lookup "results" d = Some (VList (VDict r :: rest)) /\
    lookup "latitude" r = Some lat /\
    lookup "longitude" r = Some lon /\
    lookup "name" r = Some name.
Proof.
  unfold get_coordinates.
  destruct (geocoding_api location) as [cause|data]; [discriminate|].
  destruct (parse_coordinates str_of data) as [coords|e] eqn:Hparse; [|discriminate].
  intro H. inversion H; subst. split; [reflexivity|].
  destruct (parse_coordinates_inv str_of _ _ _ _ Hparse)
    as (d & r & rest & name & -> & Hres & Hlat & Hlon & Hname).
  now exists d, r, rest, name.
Qed.

End Places.

Lemma get_coordinates_found_witness :
  get_coordinates pune_geocoding no_str "Pune" =
  ([], Some (VNum 18.52, VNum 73.86, "Pune, Maharashtra, India"%string)).
Proof.
  exact (get_coordinates_found pune_geocoding no_str "Pune" _ _ _ _ _
           "Pune" "Maharashtra" "India"
           eq_refl eq_refl eq_refl eq_refl eq_refl eq_refl eq_refl).
Defined.

Lemma get_coordinates_some_witness :
  get_coordinates pune_geocoding no_str "Pune" =
    ([], Some (VNum 18.52, VNum 73.86, "Pune, Maharashtra, India"%string)) /\
  ([] : list event) = [].
Proof.
  split; [reflexivity|].
  exact (proj1 (get_coordinates_some pune_geocoding no_str "Pune" [] _ _ _ eq_refl)).
Defined.

(** ** Reports *)

Lemma as_number_is_number (v : value) (q : Q) :
  as_number v = Some q -> is_number v = true.
Proof. unfold is_number. now intros ->. Qed.

Lemma get_climate_zone_latitude (lat temp precip : value) (zone : string) :
  get_climate_zone lat temp precip = Ok zone -> is_number lat = true.
Proof.
  unfold is_number. destruct (as_number lat) eqn:Ha; [reflexivity|].
  now rewrite (get_climate_zone_not_number _ _ _ Ha).
Qed.

Lemma generate_advice_table_text (weather : value) (soil_info : SoilProfile)
    (text : string) :
  In soil_info [lateritic_soil; red_yellow_soil; subtropical_soil;
                brown_earth_soil; tundra_soil] ->
  generate_advice weather soil_info = Ok text ->
  str_contains erosion_sentence text = erosion_risk soil_info /\
  String.prefix (soil_type_sentence soil_info) text = true.
Proof.
  intros Hin Htext. unfold generate_advice in Htext.
  apply bind_Ok in Htext. destruct Htext as (l & Hl & Htext).
  apply advice_sentences_inv in Hl.
  destruct Hl as (_ & _ & _ & _ & code & t & p & w & _ & _ & _ & _ & _ & _ & _ & _ & ->).
  injection Htext as <-.
  destruct (table_text_mentions soil_info t p w (code_in code rain_codes) Hin)
    as (_ & _ & _ & _ & Hero & Hpre).
  now split.
Qed.

Lemma table_erosion_risk (soil_info : SoilProfile) :
  In soil_info [lateritic_soil; red_yellow_soil; subtropical_soil;
                brown_earth_soil; tundra_soil] ->
  (erosion_risk soil_info = true <-> soil_info = lateritic_soil).
Proof.
  simpl. intros [<-|[<-|[<-|[<-|[<-|[]]]]]];
    (split; [try discriminate; reflexivity | try discriminate; reflexivity]).
Qed.

Section Reports.

Variable geocoding_api : string -> http_outcome.
Variable weather_api : value -> value -> http_outcome.
Variable str_of : value -> string.

(** When the place is found, a failure of the forecast request is
    printed and answered by the error result "Could not fetch weather
    data", and so is, without a printed line, a decoded forecast that is
    falsy: [null], [{}], [[]], [0], [false] or the empty string. *)
Theorem weather_failure_reported (location : string) (log : list event)
    (lat lon : value) (name : string) :
  get_coordinates geocoding_api str_of location = (log, Some (lat, lon, name)) ->
  (forall cause,
     weather_api lat lon = HttpFailure cause ->
     get_agricultural_recommendation geocoding_api weather_api str_of location =
     ([WeatherAPIError (RequestException cause)],
      Ok (ErrorResult "Could not fetch weather data"))) /\
  (forall body,
     weather_api lat lon = HttpJson body ->
     body = VNone \/ body = VDict [] \/ body = VList [] \/ body = VBool false \/
     body = VStr EmptyString \/ (exists q, body = VNum q /\ q == 0) ->
     get_agricultural_recommendation geocoding_api weather_api str_of location =
     ([], Ok (ErrorResult "Could not fetch weather data"))).
Proof.
  intro Hgeo.
  assert (Hlog : log = []).
  { destruct (get_coordinates_log geocoding_api str_of location) as [H | (e & H)].
    - now rewrite Hgeo in H.
    - rewrite Hgeo in H. discriminate. }
  subst log.
  unfold get_agricultural_recommendation, fetch_combined_data. rewrite Hgeo.
  split.
  - intros cause ->. reflexivity.
  - intros body -> Hfalsy.
    assert (Hb : truthy body = false).
    { destruct Hfalsy as [->|[->|[->|[->|[->|(q & -> & Hq)]]]]]; try reflexivity.
      simpl. apply Qeq_bool_iff in Hq. now rewrite Hq. }
    now rewrite Hb.
Qed.

(** A report, when one is returned, came without a printed line from the
    place the geocoder found, at a latitude that is a number; its zone is
    one of the seven labels and its soil the profile that goes with the
    zone, so the erosion warning is in its advice exactly when the zone
    is "tropical rainforest"; its advice opens with the soil-type
    sentence; and its condition is a label of the table or "Unknown". *)
Theorem report_invariants (location : string) (log : list event) (r : report) :
  get_agricultural_recommendation geocoding_api weather_api str_of location =
    (log, Ok (Report r)) ->
  log = [] /\
  get_coordinates geocoding_api str_of location =
    ([], Some (latitude r, longitude r, location_name r)) /\
  is_number (latitude r) = true /\
  In (climate_zone r) zone_labels /\
  In (climate_zone r, soil r) zone_soil_table /\
  predict_soil_characteristics (latitude r) (climate_zone r) = Ok (soil r) /\
  (str_contains erosion_sentence (advice r) = true <->
     climate_zone r = "tropical rainforest"%string) /\
  String.prefix (soil_type_sentence (soil r)) (advice r) = true /\
  (condition r = "Unknown"%string \/ In (condition r) (map snd weather_codes)).
Proof.
  intro Hrun.
  destruct (recommendation_cases geocoding_api weather_api str_of location)
    as [(log' & _ & _ & H)
       | (lat & lon & name & Hgeo &
          [(cause & _ & H) | [(body & _ & _ & H) | (body & _ & _ & H)]])];
    rewrite H in Hrun; try discriminate.
  inversion Hrun as [[Hlog Hbuild]]. clear Hrun H.
  apply build_report_inv in Hbuild.
  destruct Hbuild as (d & c & tmax & psum & zone & soil_info & label & text
                      & -> & Hc & _ & _ & Hzone & Hsoil & Hlabel & Htext & Hr).
  inversion Hr; subst r; clear Hr.
  cbn [latitude longitude location_name climate_zone soil advice condition].
  destruct (zone_soil_in_table _ _ _ _ Hzone) as (soil' & Hsoil' & Hin).
  rewrite Hsoil in Hsoil'. inversion Hsoil'; subst soil'; clear Hsoil'.
  pose proof (predict_soil_characteristics_range _ _ _ Hsoil) as Hrange.
  destruct (generate_advice_table_text _ _ _ Hrange Htext) as (Hero & Hpre).
  repeat match goal with |- _ /\ _ => split end; try assumption; try reflexivity.
  - now apply get_climate_zone_latitude in Hzone.
  - simpl in Hin |- *.
    destruct Hin as [E|[E|[E|[E|[E|[E|[E|[]]]]]]]]; inversion E; tauto.
  - rewrite Hero, (table_erosion_risk _ Hrange).
    now apply zone_soil_table_lateritic.
  - destruct (as_number (reading c "weather_code")) as [q|] eqn:Hq.
    + assert (Hi : interpret_weather_code (reading c "weather_code") =
                   Ok (match find_code q weather_codes with
                       | Some l => l
                       | None => "Unknown"%string
                       end)).
      { destruct (reading c "weather_code") as [|[|]|q'| | |]; try discriminate;
          inversion Hq; subst; reflexivity. }
      rewrite Hi in Hlabel.
      destruct (find_code q weather_codes) as [l|] eqn:Hf;
        injection Hlabel as <-; [|now left].
      right. destruct (find_code_label _ _ _ Hf) as (k & Hk & _).
      change l with (snd (k, l)). now apply in_map.
    + left. destruct (reading c "weather_code") as [|[|]|q'| | |];
        try discriminate; now inversion Hlabel.
Qed.

Lemma daily_first_series (daily : list (string * value)) (key : string)
    (x : value) (rest : list value) :
  field_or daily key (VList [VInt 0]) = VList (x :: rest) ->
  daily_first (VDict daily) key = Ok x.
Proof.
  intro Hk. unfold daily_first.
  destruct daily as [|kv daily'].
  - unfold field_or in Hk. simpl in Hk. now inversion Hk.
  - cbn [truthy]. rewrite get_field_or, Hk. reflexivity.
Qed.

(** The run of the pipeline up to the classification, on a found place
    and a forecast dict with a daily block. *)
Lemma recommendation_upto_zone (location : string) (log : list event)
    (lat lon : value) (name : string) (d daily : list (string * value))
    (temp_max precip_sum : value) (rest1 rest2 : list value) :
  get_coordinates geocoding_api str_of location = (log, Some (lat, lon, name)) ->
  weather_api lat lon = HttpJson (VDict d) ->
  d <> [] ->
  field_or d "daily" (VDict []) = VDict daily ->
  field_or daily "temperature_2m_max" (VList [VInt 0]) = VList (temp_max :: rest1) ->
  field_or daily "precipitation_sum" (VList [VInt 0]) = VList (precip_sum :: rest2) ->
  get_agricultural_recommendation geocoding_api weather_api str_of location =
  ([],
   climate_zone <- get_climate_zone lat temp_max precip_sum ;;
   soil_info <- predict_soil_characteristics lat climate_zone ;;
   temperature <- get (field_or d "current" (VDict [])) "temperature_2m" (VStr "N/A") ;;
   humidity <-
     get (field_or d "current" (VDict [])) "relative_humidity_2m" (VStr "N/A") ;;
   precipitation <- get (field_or d "current" (VDict [])) "precipitation" (VInt 0) ;;
   wind_speed <- get (field_or d "current" (VDict [])) "wind_speed_10m" (VStr "N/A") ;;
   weather_code <- get (field_or d "current" (VDict [])) "weather_code" (VInt 0) ;;
   condition <- interpret_weather_code weather_code ;;
   final_advice <- generate_advice (VDict d) soil_info ;;
   Ok (Report {|
     location_name := name;
     latitude := lat;
     longitude := lon;
     temperature := temperature;
     humidity := humidity;
     precipitation := precipitation;
     wind_speed := wind_speed;
     condition := condition;
     climate_zone := climate_zone;
     soil := soil_info;
     advice := final_advice
   |})).
Proof.
  intros Hgeo Hwx Hd Hdaily H1 H2.
  assert (Hlog : log = []).
  { destruct (get_coordinates_log geocoding_api str_of location) as [H | (e & H)].
    - now rewrite Hgeo in H.
    - rewrite Hgeo in H. discriminate. }
  subst log.
  unfold get_agricultural_recommendation, fetch_combined_data.
  rewrite Hgeo, Hwx.
  assert (Htruthy : truthy (VDict d) = true)
    by (destruct d; [contradiction | reflexivity]).
  rewrite Htruthy. cbn [negb app].
  unfold build_report.
  rewrite !get_field_or. cbn [bind].
  rewrite Hdaily, (daily_first_series _ _ _ _ H1), (daily_first_series _ _ _ _ H2).
  reflexivity.
Qed.

Lemma recommendation_from_zone (location : string) (log : list event)
    (lat lon : value) (name : string) (d c daily : list (string * value))
    (temp_max precip_sum : value) (rest1 rest2 : list value) (zone : string) :
  get_coordinates geocoding_api str_of location = (log, Some (lat, lon, name)) ->
  weather_api lat lon = HttpJson (VDict d) ->
  d <> [] ->
  field_or d "current" (VDict []) = VDict c ->
  is_number (reading c "temperature_2m") = true ->
  is_number (reading c "precipitation") = true ->
  is_number (reading c "wind_speed_10m") = true ->
  hashable (reading c "weather_code") = true ->
  field_or d "daily" (VDict []) = VDict daily ->
  field_or daily "temperature_2m_max" (VList [VInt 0]) = VList (temp_max :: rest1) ->
  field_or daily "precipitation_sum" (VList [VInt 0]) = VList (precip_sum :: rest2) ->
  get_climate_zone lat temp_max precip_sum = Ok zone ->
  exists r,
    get_agricultural_recommendation geocoding_api weather_api str_of location =
      ([], Ok (Report r)) /\
    location_name r = name /\ latitude r = lat /\ longitude r = lon /\
    climate_zone r = zone /\
    predict_soil_characteristics lat zone = Ok (soil r) /\
    generate_advice (VDict d) (soil r) = Ok (advice r) /\
    interpret_weather_code (reading c "weather_code") = Ok (condition r) /\
    temperature r = field_or c "temperature_2m" (VStr "N/A") /\
    humidity r = field_or c "relative_humidity_2m" (VStr "N/A") /\
    precipitation r = field_or c "precipitation" (VInt 0) /\
    wind_speed r = field_or c "wind_speed_10m" (VStr "N/A").
Proof.
  intros Hgeo Hwx Hd Hc Nt Np Nw Hh Hdaily H1 H2 Hzone.
  destruct (zone_soil_in_table _ _ _ _ Hzone) as (soil_info & Hsoil & _).
  destruct (interpret_weather_code_hashable _ Hh) as (label & Hlabel).
  assert (Hadv : exists text, generate_advice (VDict d) soil_info = Ok text).
  { unfold generate_advice. rewrite (advice_sentences_current d c soil_info Hc), Hh.
    unfold is_number in Nt, Np, Nw.
    destruct (as_number (reading c "temperature_2m")); [|discriminate].
    destruct (as_number (reading c "precipitation")); [|discriminate].
    destruct (as_number (reading c "wind_speed_10m")); [|discriminate].
    eexists. reflexivity. }
  destruct Hadv as (text & Hadv).
  eexists. split.
  - rewrite (recommendation_upto_zone location log lat lon name d daily
               temp_max precip_sum rest1 rest2 Hgeo Hwx Hd Hdaily H1 H2).
    rewrite Hzone. cbn [bind]. rewrite Hsoil. cbn [bind].
    rewrite Hc, !get_field_or. cbn [bind].
    fold (reading c "weather_code"). rewrite Hlabel. cbn [bind].
    rewrite Hadv. cbn [bind]. reflexivity.
  - cbn [location_name latitude longitude climate_zone soil advice condition
         temperature humidity precipitation wind_speed].
    repeat match goal with |- _ /\ _ => split end; try assumption; reflexivity.
Qed.

(** On answers of the documented shape the pipeline returns a report and
    raises nothing: the place is found at a latitude that is a number,
    the forecast is a dict whose current block is a dict with numbers,
    if anything, for temperature, precipitation and wind and a hashable
    weather code, and whose daily block, if any, is a dict with, for
    each of the two series it holds, a list that starts with a number. *)
Theorem conformant_answers_report (location : string) (log : list event)
    (lat lon : value) (name : string) (d c daily : list (string * value))
    (temp_max precip_sum : value) (rest1 rest2 : list value) :
  get_coordinates geocoding_api str_of location = (log, Some (lat, lon, name)) ->
  is_number lat = true ->
  weather_api lat lon = HttpJson (VDict d) ->
  d <> [] ->
  field_or d "current" (VDict []) = VDict c ->
  is_number (reading c "temperature_2m") = true ->
  is_number (reading c "precipitation") = true ->
  is_number (reading c "wind_speed_10m") = true ->
  hashable (reading c "weather_code") = true ->
  field_or d "daily" (VDict []) = VDict daily ->
  field_or daily "temperature_2m_max" (VList [VInt 0]) = VList (temp_max :: rest1) ->
  field_or daily "precipitation_sum" (VList [VInt 0]) = VList (precip_sum :: rest2) ->
  is_number temp_max = true ->
  is_number precip_sum = true ->
  exists r,
    get_agricultural_recommendation geocoding_api weather_api str_of location =
      ([], Ok (Report r)) /\
    location_name r = name /\ latitude r = lat /\ longitude r = lon /\
    get_climate_zone lat temp_max precip_sum = Ok (climate_zone r) /\
    predict_soil_characteristics lat (climate_zone r) = Ok (soil r) /\
    generate_advice (VDict d) (soil r) = Ok (advice r) /\
    interpret_weather_code (reading c "weather_code") = Ok (condition r) /\
    temperature r = field_or c "temperature_2m" (VStr "N/A") /\
    humidity r = field_or c "relative_humidity_2m" (VStr "N/A") /\
    precipitation r = field_or c "precipitation" (VInt 0) /\
    wind_speed r = field_or c "wind_speed_10m" (VStr "N/A").
Proof.
  intros Hgeo Hlat Hwx Hd Hc Nt Np Nw Hh Hdaily H1 H2 N1 N2.
  assert (Hzone : exists zone, get_climate_zone lat temp_max precip_sum = Ok zone).
  { unfold is_number in Hlat, N1, N2.
    destruct (as_number lat) as [a|] eqn:Ha; [|discriminate].
    rewrite (get_climate_zone_number _ _ _ a Ha).
    destruct (as_number temp_max) as [t|]; [|discriminate].
    destruct (as_number precip_sum) as [p|]; [|discriminate].
    repeat split_band;
      repeat match goal with
      | |- context [if Qgt_bool ?x ?y then _ else _] => destruct (Qgt_bool x y)
      end; eexists; reflexivity. }
  destruct Hzone as (zone & Hzone).
  destruct (recommendation_from_zone location log lat lon name d c daily
              temp_max precip_sum rest1 rest2 zone
              Hgeo Hwx Hd Hc Nt Np Nw Hh Hdaily H1 H2 Hzone)
    as (r & Hrun & Hn & Hla & Hlo & Hz & Hrest).
  exists r. subst zone.
  repeat match goal with |- _ /\ _ => split end; try assumption; apply Hrest.
Qed.

(** The daily values count only where the classifier looks at them.
    Beyond 35 degrees of absolute latitude they are never read: with
    [null] or anything else in the two series the pipeline still returns
    its report, temperate or polar.  In the tropical band a daily
    maximum that is not a number, and in the subtropical band a daily
    precipitation that is not one, makes the comparison raise
    [TypeError], and the pipeline lets it escape. *)
Theorem daily_values_by_band (location : string) (log : list event)
    (lat lon : value) (a : Q) (name : string) (d c daily : list (string * value))
    (temp_max precip_sum : value) (rest1 rest2 : list value) :
  get_coordinates geocoding_api str_of location = (log, Some (lat, lon, name)) ->
  as_number lat = Some a ->
  weather_api lat lon = HttpJson (VDict d) ->
  d <> [] ->
  field_or d "current" (VDict []) = VDict c ->
  is_number (reading c "temperature_2m") = true ->
  is_number (reading c "precipitation") = true ->
  is_number (reading c "wind_speed_10m") = true ->
  hashable (reading c "weather_code") = true ->
  field_or d "daily" (VDict []) = VDict daily ->
  field_or daily "temperature_2m_max" (VList [VInt 0]) = VList (temp_max :: rest1) ->
  field_or daily "precipitation_sum" (VList [VInt 0]) = VList (precip_sum :: rest2) ->
  (35 < Qabs a ->
   exists r,
     get_agricultural_recommendation geocoding_api weather_api str_of location =
       ([], Ok (Report r)) /\
     climate_zone r = (if Qle_bool (Qabs a) 66 then "temperate" else "polar")%string) /\
  (Qabs a <= 23.5 -> is_number temp_max = false ->
   get_agricultural_recommendation geocoding_api weather_api str_of location =
     ([], Raise TypeError)) /\
  (23.5 < Qabs a /\ Qabs a <= 35 -> is_number precip_sum = false ->
   get_agricultural_recommendation geocoding_api weather_api str_of location =
     ([], Raise TypeError)).
Proof.
  intros Hgeo Ha Hwx Hd Hc Nt Np Nw Hh Hdaily H1 H2.
  pose proof (get_climate_zone_number lat temp_max precip_sum a Ha) as Hz.
  pose proof (recommendation_upto_zone location log lat lon name d daily
                temp_max precip_sum rest1 rest2 Hgeo Hwx Hd Hdaily H1 H2) as Hrun.
  split; [|split].
  - intro Hband.
    assert (Hzone : get_climate_zone lat temp_max precip_sum =
                    Ok (if Qle_bool (Qabs a) 66 then "temperate" else "polar")%string).
    { rewrite Hz. repeat split_band; reflect_Q; solve [reflexivity | lra]. }
    destruct (recommendation_from_zone location log lat lon name d c daily
                temp_max precip_sum rest1 rest2 _
                Hgeo Hwx Hd Hc Nt Np Nw Hh Hdaily H1 H2 Hzone)
      as (r & Hr & _ & _ & _ & Hzr & _).
    exists r. now split.
  - intros Hband Hnan. rewrite Hrun, Hz.
    apply Qle_bool_iff in Hband. rewrite Hband.
    unfold is_number in Hnan.
    destruct (as_number temp_max); [discriminate | reflexivity].
  - intros [Hlo Hhi] Hnan. rewrite Hrun, Hz.
    apply Qle_bool_false in Hlo. apply Qle_bool_iff in Hhi. rewrite Hlo, Hhi.
    unfold is_number in Hnan.
    destruct (as_number precip_sum); [discriminate | reflexivity].
Qed.

End Reports.


Lemma weather_failure_reported_witness :
  get_coordinates pune_geocoding no_str "Pune" =
    ([], Some (VNum 18.52, VNum 73.86, "Pune, Maharashtra, India"%string)) /\
  get_agricultural_recommendation pune_geocoding failing_forecast no_str "Pune" =
    ([WeatherAPIError (RequestException "503 Server Error")],
     Ok (ErrorResult "Could not fetch weather data")).
Proof.
  split; [reflexivity|].
  exact (proj1 (weather_failure_reported pune_geocoding failing_forecast no_str
                  "Pune" [] _ _ _ eq_refl) "503 Server Error"%string eq_refl).
Defined.

Lemma report_invariants_witness :
  get_agricultural_recommendation pune_geocoding no_code_forecast no_str "Pune" =
    ([], Ok (Report pune_report)) /\
  In (climate_zone pune_report, soil pune_report) zone_soil_table.
Proof.
  assert (H : get_agricultural_recommendation pune_geocoding no_code_forecast
                no_str "Pune" = ([], Ok (Report pune_report))) by reflexivity.
  split; [exact H|].
  exact (proj1 (proj2 (proj2 (proj2 (proj2
    (report_invariants pune_geocoding no_code_forecast no_str "Pune" []
       pune_report H)))))).
Defined.

Lemma conformant_answers_report_witness :
  exists r,
    get_agricultural_recommendation pune_geocoding no_code_forecast no_str "Pune" =
      ([], Ok (Report r)) /\
    location_name r = "Pune, Maharashtra, India"%string.
Proof.
  destruct (conformant_answers_report pune_geocoding no_code_forecast no_str
              "Pune" [] (VNum 18.52) (VNum 73.86) "Pune, Maharashtra, India"
              no_code_body no_code_current
              [("temperature_2m_max"%string, VList [VInt 31]);
               ("precipitation_sum"%string, VList [VNum 2.5])]
              (VInt 31) (VNum 2.5) [] []
              eq_refl eq_refl eq_refl ltac:(discriminate) eq_refl eq_refl eq_refl
              eq_refl eq_refl eq_refl eq_refl eq_refl eq_refl eq_refl)
    as (r & Hrun & Hname & _).
  exists r. now split.
Defined.


Lemma daily_values_by_band_witness :
  35 < Qabs 59.91 /\
  exists r,
    get_agricultural_recommendation oslo_geocoding null_daily_forecast no_str "Oslo" =
      ([], Ok (Report r)) /\
    climate_zone r = "temperate"%string.
Proof.
  split; [reflexivity|].
  exact (proj1 (daily_values_by_band oslo_geocoding null_daily_forecast no_str
                  "Oslo" [] (VNum 59.91) (VNum 10.75) 59.91 "Oslo, Norway"
                  null_daily_body no_code_current
                  [("temperature_2m_max"%string, VList [VNone]);
                   ("precipitation_sum"%string, VList [VNone])]
                  VNone VNone [] []
                  eq_refl eq_refl eq_refl ltac:(discriminate) eq_refl eq_refl
                  eq_refl eq_refl eq_refl eq_refl eq_refl eq_refl)
           eq_refl).
Defined.

(** ** What the composer does not read *)

(** Of the whole forecast [generate_advice] reads four fields of the
    current block: two forecasts whose current blocks give the same
    temperature, precipitation, wind speed and weather code get the same
    advice, or the same exception, whatever their humidity and their
    daily and hourly data are. *)
Theorem advice_reads_four_fields
    (d1 d2 c1 c2 : list (string * value)) (soil_info : SoilProfile) :
  field_or d1 "current" (VDict []) = VDict c1 ->
  field_or d2 "current" (VDict []) = VDict c2 ->
  reading c1 "temperature_2m" = reading c2 "temperature_2m" ->
  reading c1 "precipitation" = reading c2 "precipitation" ->
  reading c1 "wind_speed_10m" = reading c2 "wind_speed_10m" ->
  reading c1 "weather_code" = reading c2 "weather_code" ->
  generate_advice (VDict d1) soil_info = generate_advice (VDict d2) soil_info.
Proof.
  intros H1 H2 Ht Hp Hw Hk. unfold generate_advice.
  rewrite (advice_sentences_current d1 c1 soil_info H1),
    (advice_sentences_current d2 c2 soil_info H2).
  now rewrite Ht, Hp, Hw, Hk.
Qed.

Lemma advice_reads_four_fields_witness :
  generate_advice (VDict no_code_body) red_yellow_soil =
  generate_advice (VDict null_daily_body) red_yellow_soil.
Proof.
  exact (advice_reads_four_fields no_code_body null_daily_body
           no_code_current no_code_current red_yellow_soil
           eq_refl eq_refl eq_refl eq_refl eq_refl eq_refl).
Defined.

(** ** Incomplete geocoder results *)

Section Incomplete.

Variable geocoding_api : string -> http_outcome.
Variable weather_api : value -> value -> http_outcome.
Variable str_of : value -> string.

(** A first result that lacks ["latitude"], ["longitude"] or ["name"]
    makes the subscript raise [KeyError] inside the [try]: the error is
    printed, [get_coordinates] returns [None], and the pipeline answers
    that it could not find the location, whatever the forecast service
    would have answered. *)
Theorem incomplete_result_not_found (location : string)
    (d r : list (string * value)) (rest : list value) :
  geocoding_api location = HttpJson (VDict d) ->
  lookup "results" d = Some (VList (VDict r :: rest)) ->
  lookup "latitude" r = None \/ lookup "longitude" r = None \/
  lookup "name" r = None ->
  get_coordinates geocoding_api str_of location = ([GeocodingError KeyError], None) /\
  get_agricultural_recommendation geocoding_api weather_api str_of location =
  ([GeocodingError KeyError],
   Ok (ErrorResult ("Could not find location: " ++ location))).
Proof.
  intros Hapi Hres Hmiss.
  assert (Hparse : parse_coordinates str_of (VDict d) = Raise KeyError).
  { unfold parse_coordinates.
    cbn [contains bind getitem]. rewrite Hres.
    cbn [bind len List.length Nat.ltb Nat.leb index0 getitem].
    destruct (lookup "latitude" r) as [lat|]; cbn [bind]; [|reflexivity].
    destruct (lookup "longitude" r) as [lon|]; cbn [bind]; [|reflexivity].
    destruct (lookup "name" r) as [name|]; cbn [bind]; [|reflexivity].
    destruct Hmiss as [H|[H|H]]; discriminate. }
  assert (Hgeo : get_coordinates geocoding_api str_of location =
                 ([GeocodingError KeyError], None)).
  { unfold get_coordinates. now rewrite Hapi, Hparse. }
  split; [exact Hgeo|].
  unfold get_agricultural_recommendation. now rewrite Hgeo.
Qed.

End Incomplete.

(** A geocoder whose result has no coordinates. *)
Lemma incomplete_result_not_found_witness :
  get_coordinates
    (fun _ => HttpJson (VDict [("results"%string,
                                VList [VDict [("name"%string, VStr "Nowhere")]])]))
    no_str "Nowhere" = ([GeocodingError KeyError], None).
Proof.
  exact (proj1 (incomplete_result_not_found
                  (fun _ => HttpJson (VDict [("results"%string,
                                VList [VDict [("name"%string, VStr "Nowhere")]])]))
                  no_code_forecast no_str "Nowhere" _ _ _
                  eq_refl eq_refl (or_introl eq_refl))).
Defined.


(** ** The advisory text and the fallback *)

Lemma str_contains_here (x post : string) :
  str_contains x (x ++ post) = true.
Proof.
  apply str_contains_spec. now exists EmptyString, post.
Qed.

Lemma str_contains_after (x pre h : string) :
  str_contains x h = true -> str_contains x (pre ++ h) = true.
Proof.
  rewrite !str_contains_spec. intros (pre' & post & ->).
  exists (pre ++ pre')%string, post. now rewrite append_assoc.
Qed.

(** A string that is joined occurs in the join. *)
Lemma str_contains_join (sep x : string) (l : list string) :
  In x l -> str_contains x (join sep l) = true.
Proof.
  unfold join. induction l as [|y l IH]; [contradiction|].
  intros [-> | Hin].
  - destruct l as [|z l]; simpl.
    + rewrite <- (append_empty x) at 2. apply str_contains_here.
    + apply str_contains_here.
  - destruct l as [|z l]; [contradiction|].
    change (String.concat sep (y :: z :: l))
      with (y ++ sep ++ String.concat sep (z :: l))%string.
    apply str_contains_after, str_contains_after, IH, Hin.
Qed.

(** C7: whatever the weather argument and the soil profile, the text
    [generate_advice] returns is the newline join of a list that holds
    the soil-type, best-crop and fertility sentences, so the text
    contains these three sentences; the list is therefore never empty
    and the "stable conditions" fallback is never appended to it; on
    every snapshot the call does return such a text; and on the
    profiles of the soil table the returned text does not contain the
    fallback sentence as a substring either. *)
Theorem stable_fallback_unreachable (weather : value) (soil : SoilProfile) :
  (forall l, advice_sentences weather soil = Ok l ->
     In (soil_type_sentence soil) l /\
     In (best_crop_sentence soil) l /\
     In (fertility_sentence soil) l /\
     l <> [] /\
     ~ In stable_sentence l) /\
  (forall s, exists l,
     advice_sentences (weather_of s) soil = Ok l /\
     In (soil_type_sentence soil) l /\
     In (best_crop_sentence soil) l /\
     In (fertility_sentence soil) l /\
     ~ In stable_sentence l) /\
  (forall lat zone text,
     predict_soil_characteristics lat zone = Ok soil ->
     generate_advice weather soil = Ok text ->
     str_contains stable_sentence text = false) /\
  (forall text,
     generate_advice weather soil = Ok text ->
     exists l,
       advice_sentences weather soil = Ok l /\
       text = join nl l /\
       ~ In stable_sentence l /\
       str_contains (soil_type_sentence soil) text = true /\
       str_contains (best_crop_sentence soil) text = true /\
       str_contains (fertility_sentence soil) text = true) /\
  (forall s, exists text,
     generate_advice (weather_of s) soil = Ok text /\
     str_contains (soil_type_sentence soil) text = true /\
     str_contains (best_crop_sentence soil) text = true /\
     str_contains (fertility_sentence soil) text = true).
Proof.
  destruct (stable_fallback_list weather soil) as (Hlist & Hsnap & Htable).
  split; [exact Hlist|]. split; [exact Hsnap|]. split; [exact Htable|].
  assert (Htext : forall w text,
            generate_advice w soil = Ok text ->
            exists l,
              advice_sentences w soil = Ok l /\ text = join nl l /\
              str_contains (soil_type_sentence soil) text = true /\
              str_contains (best_crop_sentence soil) text = true /\
              str_contains (fertility_sentence soil) text = true).
  { intros w text H. unfold generate_advice in H.
    apply bind_Ok in H. destruct H as (l & Hl & H).
    injection H as <-. exists l. split; [exact Hl|]. split; [reflexivity|].
    destruct (stable_fallback_list w soil) as (Hw & _ & _).
    destruct (Hw l Hl) as (H1 & H2 & H3 & _ & _).
    repeat split; now apply str_contains_join. }
  split.
  - intros text H. destruct (Htext weather text H) as (l & Hl & -> & H1 & H2 & H3).
    exists l. destruct (Hlist l Hl) as (_ & _ & _ & _ & Hstable).
    repeat split; assumption.
  - intro s. exists (join nl (rules_1_to_7 soil (snap_temperature s)
                               (snap_precipitation s) (snap_wind_speed s)
                               (code_in (VInt (snap_weather_code s)) rain_codes))).
    assert (H : generate_advice (weather_of s) soil =
                Ok (join nl (rules_1_to_7 soil (snap_temperature s)
                               (snap_precipitation s) (snap_wind_speed s)
                               (code_in (VInt (snap_weather_code s)) rain_codes))))
      by (unfold generate_advice; now rewrite advice_sentences_snapshot).
    split; [exact H|].
    destruct (Htext _ _ H) as (l & _ & _ & H1 & H2 & H3).
    repeat split; assumption.
Qed.

(** ** The default weather code in the report *)

(** C9: whenever the pipeline returns a report for a forecast whose
    current block has no ["weather_code"], the code was defaulted to 0
    and the report gives the condition as "Clear sky", the label of
    code 0; a temperature, humidity or wind speed missing from the block
    is "N/A" in the report and a missing precipitation is 0.  The Pune
    forecast without a weather code is such a run.  But a report is not
    returned for every such forecast: when the daily series are present
    and empty the subscript of line 226 raises [IndexError] before the
    code is read, which is the defect of C1. *)
Theorem missing_weather_code_report :
  (forall (geocoding_api : string -> http_outcome)
          (weather_api : value -> value -> http_outcome)
          (str_of : value -> string) (location : string) (log : list event)
          (r : report) (d c : list (string * value)),
     get_agricultural_recommendation geocoding_api weather_api str_of location =
       (log, Ok (Report r)) ->
     weather_api (latitude r) (longitude r) = HttpJson (VDict d) ->
     field_or d "current" (VDict []) = VDict c ->
     lookup "weather_code" c = None ->
     condition r = "Clear sky"%string /\
     interpret_weather_code (VInt 0) = Ok (condition r) /\
     temperature r = field_or c "temperature_2m" (VStr "N/A") /\
     humidity r = field_or c "relative_humidity_2m" (VStr "N/A") /\
     wind_speed r = field_or c "wind_speed_10m" (VStr "N/A") /\
     precipitation r = field_or c "precipitation" (VInt 0) /\
     (lookup "temperature_2m" c = None -> temperature r = VStr "N/A") /\
     (lookup "relative_humidity_2m" c = None -> humidity r = VStr "N/A") /\
     (lookup "wind_speed_10m" c = None -> wind_speed r = VStr "N/A") /\
     (lookup "precipitation" c = None -> precipitation r = VInt 0)) /\
  (get_agricultural_recommendation pune_geocoding no_code_forecast no_str "Pune" =
     ([], Ok (Report pune_report)) /\
   lookup "weather_code" no_code_current = None /\
   condition pune_report = "Clear sky"%string /\
   humidity pune_report = VStr "N/A") /\
  (field_or no_code_empty_daily_body "current" (VDict []) = VDict no_code_current /\
   lookup "weather_code" no_code_current = None /\
   get_agricultural_recommendation pune_geocoding no_code_empty_daily_forecast
     no_str "Pune" = ([], Raise IndexError)).
Proof.
  split; [|split; [repeat split | repeat split]].
  intros geocoding_api weather_api str_of location log r d c Hrun Hwx Hc Hcode.
  destruct (recommendation_cases geocoding_api weather_api str_of location)
    as [(log' & _ & _ & H)
       | (lat & lon & name & Hgeo &
          [(cause & _ & H) | [(body & _ & _ & H) | (body & Hbody & _ & H)]])];
    rewrite H in Hrun; try discriminate.
  injection Hrun as _ Hbuild.
  apply build_report_inv in Hbuild.
  destruct Hbuild as (d' & c' & tmax & psum & zone & soil_info & label & text
                      & -> & Hc' & _ & _ & _ & _ & Hlabel & _ & Hr).
  injection Hr as ->.
  cbn [latitude longitude] in Hwx.
  rewrite Hbody in Hwx. injection Hwx as <-.
  rewrite Hc in Hc'. injection Hc' as <-.
  assert (Hdefault : reading c "weather_code" = VInt 0)
    by (unfold reading, field_or; now rewrite Hcode).
  rewrite Hdefault in Hlabel.
  change (interpret_weather_code (VInt 0)) with (@Ok string "Clear sky") in Hlabel.
  injection Hlabel as <-.
  cbn [condition temperature humidity wind_speed precipitation].
  unfold field_or.
  repeat match goal with |- _ /\ _ => split end; try reflexivity;
    intros ->; reflexivity.
Qed.
